(** * ts-forecasting-pipeline: series specs, loading and (de)serialisation

    A shallow embedding of [ts_forecasting_pipeline/speccing.py] and of the
    parts of pandas, pytz and the Python runtime that it drives, followed by
    the properties of the specification that concern it.

    Conventions.
    - A pandas timestamp is its [i8] value: nanoseconds since the epoch, in
      UTC for a timezone-aware index, wall-clock for a naive one.
    - A Python [timedelta] is its total number of microseconds.
    - A float64 is a [spec_float] with the binary64 parameters; [S754_nan]
      is NaN, which is what pandas calls null in a numeric series.
    - Python objects that the code mutates or shares ([pd.Series]) live in a
      heap and are passed by location; a [SeriesSpecs] object is the [self]
      component of the interpreter state. *)

From Stdlib Require Import ZArith List String Ascii Bool Lia.
From Stdlib Require Import SpecFloat DecimalString DecimalZ.
From stdpp Require Import base option list gmap strings sorting.

Open Scope string_scope.
Open Scope Z_scope.

(** ** Python results

    The exceptions that the code raises or meets. [DanglingReference] is
    not one of Python: it is the answer of the model to a location that the
    heap does not hold, which a Python reference never is. *)

Inductive exn :=
| IncompatibleModelSpecs (msg : string)
| ValueError (msg : string)
| AttributeError (msg : string)
| KeyError (key : string)
| TypeError (msg : string)
| FileNotFoundError (path : string)
| UnknownTimeZoneError (zone : string)
| DanglingReference.

Inductive Result (A : Type) :=
| Ok (a : A)
| Raise (e : exn).
Arguments Ok {A} a.
Arguments Raise {A} e.

Definition is_ok {A} (r : Result A) : bool :=
  match r with Ok _ => true | Raise _ => false end.

(** ** Floats *)

Module F64.
Definition prec : Z := 53.
Definition emax : Z := 1024.
Definition t := spec_float.

Definition nan : t := S754_nan.
Definition zero : t := S754_zero false.
Definition inf : t := S754_infinity false.
Definition of_Z (z : Z) : t := binary_normalize prec emax z 0 false.
Definition add : t -> t -> t := SFadd prec emax.
Definition div : t -> t -> t := SFdiv prec emax.

Definition isnan (x : t) : bool :=
  match x with S754_nan => true | _ => false end.

Definition isfinite (x : t) : bool :=
  match x with S754_zero _ | S754_finite _ _ _ => true | _ => false end.
End F64.

(** ** Time zones (pytz)

    A zone is its name and its offset from UTC in nanoseconds. Zones whose
    offset changes over the year are outside this model: they are used at a
    date range over which the offset is fixed. *)

Record tzinfo := { zone : string; utcoffset : Z }.

Definition pytz_utc : tzinfo := {| zone := "UTC"; utcoffset := 0 |}.

(** ** pandas offsets

    Only the tick offsets (fixed durations) can be the frequency of a
    [timedelta]; calendar offsets (months, business days) are not modelled. *)

Inductive TickUnit := Day | Hour | Minute | Second | Milli | Micro | Nano.

Record Tick := { unit : TickUnit; n : Z }.

Definition unit_nanos (u : TickUnit) : Z :=
  match u with
  | Day => 86400000000000
  | Hour => 3600000000000
  | Minute => 60000000000
  | Second => 1000000000
  | Milli => 1000000
  | Micro => 1000
  | Nano => 1
  end.

Definition rule_code (u : TickUnit) : string :=
  match u with
  | Day => "D"
  | Hour => "H"
  | Minute => "T"
  | Second => "S"
  | Milli => "L"
  | Micro => "U"
  | Nano => "N"
  end.

Definition nanos (f : Tick) : Z := n f * unit_nanos (unit f).

Definition str_of_Z (z : Z) : string := NilZero.string_of_int (Z.to_int z).

(** [DateOffset.freqstr]: the rule code, prefixed by the multiple unless it
    is one. *)
Definition freqstr (f : Tick) : string :=
  if n f =? 1 then rule_code (unit f) else (str_of_Z (n f) ++ rule_code (unit f))%string.

(** [to_offset] on a [timedelta]: the coarsest unit that divides it, as
    pandas' [_delta_to_tick] picks it. *)
Definition delta_to_tick (delta : Z) : Tick :=
  if delta mod 1000000 =? 0 then
    let seconds := delta / 1000000 in
    if seconds mod 86400 =? 0 then {| unit := Day; n := seconds / 86400 |}
    else if seconds mod 3600 =? 0 then {| unit := Hour; n := seconds / 3600 |}
    else if seconds mod 60 =? 0 then {| unit := Minute; n := seconds / 60 |}
    else {| unit := Second; n := seconds |}
  else
    let ns := delta * 1000 in
    if ns mod 1000000 =? 0 then {| unit := Milli; n := ns / 1000000 |}
    else {| unit := Micro; n := ns / 1000 |}.

(** Modelled from the spec: [utils.time_utils.timedelta_to_pandas_freq_str]
    is not among the sources. The series' sampling frequency is compared
    with the expected one through pandas frequency strings, so this is the
    frequency string of the offset that pandas builds for the timedelta. *)
Definition timedelta_to_pandas_freq_str (resolution : Z) : string :=
  freqstr (delta_to_tick resolution).

(** ** pandas series *)

Record DatetimeIndex := {
  stamps : list Z;
  tz : option tzinfo;
  freq : option Tick
}.

(** An index of any other type is kept as the name of its type and its
    length. *)
Inductive Index :=
| DatetimeIdx (idx : DatetimeIndex)
| OtherIdx (type_name : string) (size : nat).

Definition Index_length (i : Index) : nat :=
  match i with
  | DatetimeIdx idx => length (stamps idx)
  | OtherIdx _ size => size
  end.

Record Series := { index : Index; values : list F64.t }.

(** [pd.Series()] *)
Definition empty_Series : Series :=
  {| index := OtherIdx "Index" 0; values := [] |}.

(** [DatetimeIndex.tz_localize] on a naive index: the wall-clock stamps are
    read as local times of [zone]; the frequency is kept. *)
Definition tz_localize (idx : DatetimeIndex) (z : option tzinfo) : DatetimeIndex :=
  match z with
  | None => idx
  | Some z' =>
      {| stamps := map (fun t => t - utcoffset z') (stamps idx);
         tz := Some z';
         freq := freq idx |}
  end.

(** The class invariant of a [DatetimeIndex] that carries a frequency:
    pandas validates the stamps against it. *)
Fixpoint regular (step : Z) (l : list Z) : Prop :=
  match l with
  | [] => True
  | t :: l' =>
      match l' with
      | [] => True
      | t' :: _ => t' = t + step /\ regular step l'
      end
  end.

Definition wf_index (idx : DatetimeIndex) : Prop :=
  match freq idx with
  | Some f => regular (nanos f) (stamps idx)
  | None => True
  end.

Definition wf_Series (s : Series) : Prop :=
  Index_length (index s) = length (values s) /\
  match index s with
  | DatetimeIdx idx => wf_index idx
  | OtherIdx _ _ => True
  end.

(** [to_offset] on a frequency string: an optional multiple followed by a
    rule code. *)
Fixpoint split_last (s : string) : option (string * ascii) :=
  match s with
  | EmptyString => None
  | String c s' =>
      match split_last s' with
      | None => Some (EmptyString, c)
      | Some (p, l) => Some (String c p, l)
      end
  end.

Definition unit_of_code (c : ascii) : option TickUnit :=
  if Ascii.eqb c "D" then Some Day
  else if Ascii.eqb c "H" then Some Hour
  else if Ascii.eqb c "T" then Some Minute
  else if Ascii.eqb c "S" then Some Second
  else if Ascii.eqb c "L" then Some Milli
  else if Ascii.eqb c "U" then Some Micro
  else if Ascii.eqb c "N" then Some Nano
  else None.

Definition to_offset (s : string) : option Tick :=
  match split_last s with
  | None => None
  | Some (p, c) =>
      match unit_of_code c with
      | None => None
      | Some u =>
          match p with
          | EmptyString => Some {| unit := u; n := 1 |}
          | _ =>
              match NilZero.int_of_string p with
              | Some d => Some {| unit := u; n := Z.of_int d |}
              | None => None
              end
          end
      end
  end.

(** ** Python values that travel in keyword dictionaries *)

Inductive pyval :=
| PyNone
| PyStr (s : string)
| PyInt (z : Z)
| PyBool (b : bool).

(** ** Resampling (pandas [Series.resample])

    A resampler groups the observations of a timezone-aware series into
    buckets of one tick each. The edges are anchored at the local midnight
    of the first observation's day, as [_adjust_dates_anchored] does with
    the default [base]. Of the keywords of [resample] only [closed] and
    [label] are modelled; any other keyword is reported the way pandas
    reports a keyword it does not know, and a rule that is not a positive
    duration is refused as an invalid frequency. *)

Inductive Side := Left | Right.

Record Resampler := {
  r_stamps : list Z;
  r_values : list F64.t;
  r_tz : option tzinfo;
  r_rule : Tick;
  r_closed : Side;
  r_label : Side
}.

Definition side_kwarg (kw : string) (v : option pyval) : Result Side :=
  match v with
  | None | Some PyNone => Ok Left
  | Some (PyStr s) =>
      if String.eqb s "left" then Ok Left
      else if String.eqb s "right" then Ok Right
      else Raise (ValueError ("Unsupported value " ++ s ++ " for `" ++ kw ++ "`"))
  | Some _ => Raise (ValueError ("Unsupported value for `" ++ kw ++ "`"))
  end.

Definition known_kwarg (k : string) : bool :=
  String.eqb k "closed" || String.eqb k "label".

Definition first_unknown_kwarg (kwargs : gmap string pyval) : option string :=
  fst <$> head (filter (fun kv => negb (known_kwarg kv.1)) (map_to_list kwargs)).

Definition day_nanos : Z := 86400000000000.

Definition list_min (l : list Z) : Z := fold_right Z.min (hd 0 l) l.
Definition list_max (l : list Z) : Z := fold_right Z.max (hd 0 l) l.

Definition normalize (z : option tzinfo) (t : Z) : Z :=
  let off := from_option utcoffset 0 z in
  (t + off) / day_nanos * day_nanos - off.

(** The first and the last bucket edge. *)
Definition adjust_dates_anchored (first last step : Z) (z : option tzinfo)
    (closed : Side) : Z * Z :=
  let start_day := normalize z first in
  let foffset := (first - start_day) mod step in
  let loffset := (last - start_day) mod step in
  match closed with
  | Right =>
      (if 0 <? foffset then first - foffset else first - step,
       if 0 <? loffset then last + (step - loffset) else last)
  | Left =>
      (if 0 <? foffset then first - foffset else first,
       if 0 <? loffset then last + (step - loffset) else last + step)
  end.

(** Left edges of the buckets: [count] edges from [start], one step apart. *)
Fixpoint edges (start step : Z) (count : nat) : list Z :=
  match count with
  | O => []
  | S k => start :: edges (start + step) step k
  end.

Definition bucket_edges (r : Resampler) : list Z :=
  let step := nanos (r_rule r) in
  let '(lo, hi) :=
    adjust_dates_anchored (list_min (r_stamps r)) (list_max (r_stamps r))
      step (r_tz r) (r_closed r) in
  edges lo step (Z.to_nat ((hi - lo) / step)).

Definition in_bucket (closed : Side) (step e t : Z) : bool :=
  match closed with
  | Left => (e <=? t) && (t <? e + step)
  | Right => (e <? t) && (t <=? e + step)
  end.

Definition bucket (r : Resampler) (e : Z) : list F64.t :=
  snd <$> filter
    (fun tv => Is_true (in_bucket (r_closed r) (nanos (r_rule r)) e tv.1))
    (zip (r_stamps r) (r_values r)).

Definition bucket_label (r : Resampler) (e : Z) : Z :=
  match r_label r with
  | Left => e
  | Right => e + nanos (r_rule r)
  end.

(** Aggregating a resampler with a reduction gives a series on the bucket
    labels, in the zone of the source, whose frequency is the rule. *)
Definition aggregate (reduce : list F64.t -> F64.t) (r : Resampler) : Series :=
  let es := bucket_edges r in
  {| index := DatetimeIdx {| stamps := bucket_label r <$> es;
                             tz := r_tz r;
                             freq := Some (r_rule r) |};
     values := (fun e => reduce (bucket r e)) <$> es |}.

(** [Resampler.mean]: NaN observations are skipped, an empty bucket is NaN. *)
Definition mean_of (vs : list F64.t) : F64.t :=
  let xs := filter (fun v => Is_true (negb (F64.isnan v))) vs in
  match xs with
  | [] => F64.nan
  | _ => F64.div (fold_left F64.add xs F64.zero) (F64.of_Z (Z.of_nat (length xs)))
  end.

Definition Resampler_mean (r : Resampler) : Result Series :=
  Ok (aggregate mean_of r).

Definition side_str (s : Side) : string :=
  match s with Left => "left" | Right => "right" end.

(** [repr] of a resampler, abbreviated to the fields of the model. *)
Definition Resampler_repr (r : Resampler) : string :=
  "DatetimeIndexResampler [freq=" ++ freqstr (r_rule r) ++ ", closed="
    ++ side_str (r_closed r) ++ ", label=" ++ side_str (r_label r) ++ "]".

(** [data.resample(rule, **kwargs)] on a series with a [DatetimeIndex]. *)
Definition Series_resample (idx : DatetimeIndex) (vals : list F64.t)
    (rule : string) (kwargs : gmap string pyval) : Result Resampler :=
  match to_offset rule with
  | None => Raise (ValueError ("Invalid frequency: " ++ rule))
  | Some f =>
      match first_unknown_kwarg kwargs with
      | Some k =>
          Raise (TypeError ("resample() got an unexpected keyword argument '" ++ k ++ "'"))
      | None =>
          match side_kwarg "closed" (kwargs !! "closed") with
          | Raise e => Raise e
          | Ok c =>
              match side_kwarg "label" (kwargs !! "label") with
              | Raise e => Raise e
              | Ok l =>
                  if nanos f <=? 0 then
                    Raise (ValueError ("Invalid frequency: " ++ rule))
                  else
                    Ok {| r_stamps := stamps idx; r_values := vals;
                          r_tz := tz idx; r_rule := f;
                          r_closed := c; r_label := l |}
              end
          end
      end
  end.

(** ** Data sources *)

(** A pickled data frame: its index and its numeric columns. *)
Record DataFrame := {
  df_index : Index;
  df_columns : gmap string (list F64.t)
}.

(** A row of a query result: the [datetime], [value] and [horizon] columns;
    [None] and NaN are the nulls of the database. *)
Record Row := {
  datetime : option Z;
  value : F64.t;
  horizon : option Z
}.

(** A SQLAlchemy query, seen through what the code asks of it: the table
    of its first entity, its rendering by [render_query] and the rows that
    [all()] returns. *)
Record Query := {
  tablename : string;
  rendered : string;
  all : list Row
}.

(** ** Transformations *)

Record Transformation := {
  params : gmap string pyval;
  transform : list F64.t -> list F64.t
}.

(** ** Python objects

    Attributes are untyped in Python: a spec stores whatever its constructor
    is given. [OSeries] is a reference to a series in the heap;
    [OSeriesJson] is the string that holds the JSON text of a series, seen
    as the epoch stamps and the values written in it. *)

Definition loc := nat.

Inductive pyobj :=
| ONone
| OStr (s : string)
| OInt (z : Z)
| OBool (b : bool)
| ODict (d : gmap string pyval)
| OTz (z : tzinfo)
| OTransformation (t : Transformation)
| OSeries (l : loc)
| OSeriesJson (epochs : list Z) (vals : list F64.t)
| OQuery (q : Query)
| OForeign (repr : string).

Definition type_name_of (o : pyobj) : string :=
  match o with
  | ONone => "NoneType"
  | OStr _ | OSeriesJson _ _ => "str"
  | OInt _ => "int"
  | OBool _ => "bool"
  | ODict _ => "dict"
  | OTz _ => "tzinfo"
  | OTransformation _ => "Transformation"
  | OSeries _ => "Series"
  | OQuery _ => "Query"
  | OForeign _ => "object"
  end.

Definition no_attribute (o : pyobj) (attr : string) : exn :=
  AttributeError ("'" ++ type_name_of o ++ "' object has no attribute '" ++ attr ++ "'").

(** A Python [datetime]: microseconds since the epoch, in UTC when it is
    aware and wall-clock when it is naive. *)
Record pydatetime := { dt_micros : Z; dt_tz : option tzinfo }.

(** The world outside the interpreter. *)
Class Runtime := {
  (** the pickles on disk, by path *)
  pickles : gmap string DataFrame;
  (** [inspect.getmembers(resampler, inspect.ismethod)]: the bound methods
      of a resampler, by name *)
  getmembers : list (string * (Resampler -> Result Series));
  (** [DataFrame.sort_values] on one integer column; pandas sorts with an
      algorithm that need not be stable *)
  sort_values : (Row -> Z) -> list Row -> list Row;
  sort_values_perm : forall key l, sort_values key l ≡ₚ l;
  sort_values_sorted :
    forall key l, StronglySorted (fun a b => key a <= key b) (sort_values key l);
  (** the zones that pytz knows, with their offsets *)
  timezones : gmap string Z;
  (** calling a callable of the module namespace that is not one of the
      series spec classes *)
  call_global : string -> gmap string pyobj -> Result pyobj;
  (** [dateutil.parser.parse] *)
  dateutil_parse : string -> option pydatetime;
  (** [tz_aware_utc_now()] *)
  tz_aware_utc_now : pydatetime
}.

(** ** Series specs

    The five classes of the module; [SeriesSpecs] and [CSVFileSeriesSpecs]
    have no attributes of their own. *)

Inductive SeriesClass :=
| SeriesSpecs_
| ObjectSeriesSpecs_ (data : loc)
| CSVFileSeriesSpecs_
| DFFileSeriesSpecs_ (file_path column : pyobj)
| DBSeriesSpecs_ (db_engine query : pyobj).

Definition class_name (c : SeriesClass) : string :=
  match c with
  | SeriesSpecs_ => "SeriesSpecs"
  | ObjectSeriesSpecs_ _ => "ObjectSeriesSpecs"
  | CSVFileSeriesSpecs_ => "CSVFileSeriesSpecs"
  | DFFileSeriesSpecs_ _ _ => "DFFileSeriesSpecs"
  | DBSeriesSpecs_ _ _ => "DBSeriesSpecs"
  end.

Record SeriesSpecs := {
  name : pyobj;
  original_tz : pyobj;
  transformation : pyobj;
  resampling_config : pyobj;
  class : SeriesClass
}.

(** [self.__series_type__] *)
Definition series_type (s : SeriesSpecs) : string := class_name (class s).

(** ** The interpreter state and its monad

    A method runs on [self] and the heap; an exception leaves the state as
    it was when it was raised. *)

Record PyState := {
  self : SeriesSpecs;
  heap : list Series
}.

Definition Py (A : Type) : Type := PyState -> Result A * PyState.

Definition ret {A} (a : A) : Py A := fun st => (Ok a, st).

Definition raise {A} (e : exn) : Py A := fun st => (Raise e, st).

Definition bind {A B} (m : Py A) (k : A -> Py B) : Py B :=
  fun st =>
    match m st with
    | (Ok a, st') => k a st'
    | (Raise e, st') => (Raise e, st')
    end.

Declare Scope py_scope.
Delimit Scope py_scope with py.
Notation "'let*' x := m 'in' k" := (bind m (fun x => k))
  (at level 10, x name, m at level 100, k at level 200) : py_scope.
Notation "'let*' ' p := m 'in' k" :=
  (bind m (fun x => match x with p => k end))
  (at level 10, p strict pattern, m at level 100, k at level 200) : py_scope.
Notation "m ;;; k" := (bind m (fun _ => k))
  (at level 100, k at level 200, right associativity) : py_scope.

Definition lift {A} (r : Result A) : Py A := fun st => (r, st).

Definition get_self : Py SeriesSpecs := fun st => (Ok (self st), st).

(** [self.original_tz = z] *)
Definition set_original_tz (z : pyobj) : Py () :=
  fun st =>
    (Ok (),
     {| self := {| name := name (self st);
                   original_tz := z;
                   transformation := transformation (self st);
                   resampling_config := resampling_config (self st);
                   class := class (self st) |};
        heap := heap st |}).

(** Reading an object. *)
Definition deref (l : loc) : Py Series :=
  fun st =>
    match heap st !! l with
    | Some s => (Ok s, st)
    | None => (Raise DanglingReference, st)
    end.

(** A new object. *)
Definition alloc (s : Series) : Py loc :=
  fun st => (Ok (length (heap st)), {| self := self st; heap := heap st ++ [s] |}).

(** [data.index = idx]: the object at [l] is changed in place. *)
Definition set_index (l : loc) (idx : DatetimeIndex) : Py () :=
  fun st =>
    match heap st !! l with
    | Some s =>
        (Ok (),
         {| self := self st;
            heap := <[l := {| index := DatetimeIdx idx; values := values s |}]> (heap st) |})
    | None => (Raise DanglingReference, st)
    end.

Open Scope py_scope.

(** ** [_load_series], per class *)

Definition nl : string := String (ascii_of_nat 10) EmptyString.

Definition query_printout (q : Query) : string :=
  " Here's a print-out of the database query:" ++ nl ++ nl ++ rendered q ++ nl ++ nl.

Definition isnone {A} (o : option A) : bool :=
  match o with Some _ => false | None => true end.

(** [df.isnull()] on one row. *)
Definition Row_isnull (r : Row) : bool :=
  isnone (datetime r) || F64.isnan (value r) || isnone (horizon r).

Definition Row_datetime (r : Row) : Z := default 0 (datetime r).
Definition Row_horizon (r : Row) : Z := default 0 (horizon r).

(** [drop_duplicates(subset=["datetime"], keep="first")] *)
Fixpoint drop_duplicates_from (seen : list Z) (rows : list Row) : list Row :=
  match rows with
  | [] => []
  | r :: rows' =>
      if bool_decide (Row_datetime r ∈ seen) then drop_duplicates_from seen rows'
      else r :: drop_duplicates_from (Row_datetime r :: seen) rows'
  end.

Definition drop_duplicates (rows : list Row) : list Row :=
  drop_duplicates_from [] rows.

(** [pd.Series(index=index, data=data)] *)
Definition new_Series (idx : Index) (vals : list F64.t) : Result Series :=
  if (length vals =? Index_length idx)%nat then
    Ok {| index := idx; values := vals |}
  else
    Raise (ValueError ("Length of passed values is "
      ++ str_of_Z (Z.of_nat (length vals)) ++ ", index implies "
      ++ str_of_Z (Z.of_nat (Index_length idx)))).

Definition pyval_str (v : pyval) : string :=
  match v with
  | PyNone => "None"
  | PyStr s => s
  | PyInt z => str_of_Z z
  | PyBool true => "True"
  | PyBool false => "False"
  end.

Definition no_values_msg : string :=
  "No values found in requested %s data. It's no use to continue I'm afraid.".

Definition nan_values_msg : string :=
  "Nan values found in the requested %s data. It's no use to continue I'm afraid.".

Section Loading.
Context `{Runtime}.

(** [DBSeriesSpecs._load_series] on the query of the spec. *)
Definition DB_load_series (q : Query) : Result Series :=
  let df := all q in
  match df with
  | [] =>
      Raise (ValueError ("No values found in database for the requested "
        ++ tablename q ++ " data. It's no use to continue I'm afraid."
        ++ query_printout q))
  | _ =>
      if existsb Row_isnull df then
        Raise (ValueError ("Nan values found in database for the requested "
          ++ tablename q ++ " data. It's no use to continue I'm afraid."
          ++ query_printout q))
      else
        (* Keep the most recent observation *)
        let series :=
          sort_values Row_datetime
            (drop_duplicates (sort_values Row_horizon df)) in
        Ok {| index := DatetimeIdx {| stamps := Row_datetime <$> series;
                                      tz := Some pytz_utc;
                                      freq := None |};
              values := value <$> series |}
  end.

(** [DFFileSeriesSpecs._load_series] *)
Definition DFFile_load_series (file_path column : pyobj) : Result Series :=
  match file_path with
  | OStr path =>
      match pickles !! path with
      | None => Raise (FileNotFoundError path)
      | Some df =>
          match column with
          | OStr c =>
              match df_columns df !! c with
              | None => Raise (KeyError c)
              | Some vals => Ok {| index := df_index df; values := vals |}
              end
          | _ => Raise (KeyError (type_name_of column))
          end
      end
  | _ => Raise (TypeError "expected str, bytes or os.PathLike object")
  end.

(** [self._load_series()], dispatched on the class of [self]. An object
    spec hands out the very series it stores; every other class builds a
    new one. *)
Definition _load_series : Py loc :=
  let* s := get_self in
  match class s with
  | SeriesSpecs_ | CSVFileSeriesSpecs_ => alloc empty_Series
  | ObjectSeriesSpecs_ data => ret data
  | DFFileSeriesSpecs_ file_path column =>
      let* series := lift (DFFile_load_series file_path column) in
      alloc series
  | DBSeriesSpecs_ _ query =>
      match query with
      | OQuery q =>
          let* series := lift (DB_load_series q) in
          alloc series
      | _ => raise (no_attribute query "column_descriptions")
      end
  end.

(** ** [SeriesSpecs.resample_data] *)

Fixpoint find_member (agg : pyval)
    (members : list (string * (Resampler -> Result Series)))
    : option (Resampler -> Result Series) :=
  match members with
  | [] => None
  | (agg_name, agg_method) :: members' =>
      match agg with
      | PyStr a =>
          if String.eqb a agg_name then Some agg_method
          else find_member agg members'
      | _ => find_member agg members'
      end
  end.

(** The body of [resample_data], on the [resampling_config] of [self]. *)
Definition resample_with (config : pyobj) (idx : DatetimeIndex)
    (vals : list F64.t) (expected_frequency : Z) : Result Series :=
  match config with
  | ONone =>
      match Series_resample idx vals
              (timedelta_to_pandas_freq_str expected_frequency) ∅ with
      | Raise e => Raise e
      | Ok data_resampler => Resampler_mean data_resampler
      end
  | ODict config =>
      match Series_resample idx vals
              (timedelta_to_pandas_freq_str expected_frequency)
              (delete "aggregation" config) with
      | Raise e => Raise e
      | Ok data_resampler =>
          match config !! "aggregation" with
          | None => Resampler_mean data_resampler
          | Some agg =>
              match find_member agg getmembers with
              | Some agg_method => agg_method data_resampler
              | None =>
                  Raise (IncompatibleModelSpecs
                    ("Cannot find resampling aggregation " ++ pyval_str agg
                     ++ " on " ++ Resampler_repr data_resampler))
              end
          end
      end
  | other => Raise (no_attribute other "items")
  end.

Definition resample_data (idx : DatetimeIndex) (vals : list F64.t)
    (expected_frequency : Z) : Py Series :=
  let* s := get_self in
  lift (resample_with (resampling_config s) idx vals expected_frequency).

(** ** [SeriesSpecs.load_series] *)

(** The second step of [load_series]: make sure we have a time zone
    (default to UTC), save original time zone. The index of [data] is
    assigned in place. *)
Definition ensure_timezone (data : loc) (idx : DatetimeIndex) : Py DatetimeIndex :=
  match tz idx with
  | None =>
      set_original_tz (OTz pytz_utc) ;;;
      let idx' := tz_localize idx (Some pytz_utc) in
      set_index data idx' ;;;
      ret idx'
  | Some z =>
      set_original_tz (OTz z) ;;;
      ret idx
  end.

Definition load_series (expected_frequency : Z) : Py loc :=
  let* data := _load_series in
  let* series := deref data in
  (* check if data has a DateTimeIndex *)
  match index series with
  | OtherIdx type_name _ =>
      raise (IncompatibleModelSpecs
        ("Loaded series has no DatetimeIndex, but " ++ type_name))
  | DatetimeIdx idx =>
      let* idx := ensure_timezone data idx in
      (* Raise error if data is empty or contains nan values *)
      match stamps idx with
      | [] => raise (ValueError no_values_msg)
      | _ =>
          if existsb F64.isnan (values series) then
            raise (ValueError nan_values_msg)
          else
            (* check if time series frequency is okay, if not then resample *)
            match freq idx with
            | None =>
                raise (AttributeError
                  "'NoneType' object has no attribute 'freqstr'")
            | Some f =>
                let* ' (data, series) :=
                  (if String.eqb (freqstr f)
                        (timedelta_to_pandas_freq_str expected_frequency)
                   then ret (data, {| index := DatetimeIdx idx;
                                      values := values series |})
                   else
                     let* resampled :=
                       resample_data idx (values series) expected_frequency in
                     let* data := alloc resampled in
                     ret (data, resampled)) in
                let* s := get_self in
                match transformation s with
                | ONone => ret data
                | OTransformation t =>
                    let* transformed :=
                      lift (new_Series (index series)
                              (transform t (values series))) in
                    alloc transformed
                | other => raise (no_attribute other "transform")
                end
            end
      end
  end.

End Loading.

(** ** Construction *)

(** [SeriesSpecs.__init__], which every class runs. *)
Definition SeriesSpecs_init (cls : SeriesClass)
    (name original_tz transformation resampling_config : pyobj) : SeriesSpecs :=
  {| name := name;
     original_tz := original_tz;
     transformation := transformation;
     resampling_config := resampling_config;
     class := cls |}.

(** [ObjectSeriesSpecs.__init__] *)
Definition ObjectSeriesSpecs_init (h : list Series)
    (data name original_tz transformation resampling_config : pyobj)
    : Result SeriesSpecs :=
  match data with
  | OSeries l =>
      match h !! l with
      | None => Raise DanglingReference
      | Some s =>
          match index s with
          | DatetimeIdx _ =>
              Ok (SeriesSpecs_init (ObjectSeriesSpecs_ l)
                    name original_tz transformation resampling_config)
          | OtherIdx type_name _ =>
              Raise (IncompatibleModelSpecs
                ("Please provide a DatetimeIndex. Only found " ++ type_name ++ "."))
          end
      end
  | other => Raise (no_attribute other "index")
  end.

(** [DFFileSeriesSpecs.__init__] *)
Definition DFFileSeriesSpecs_init
    (file_path name column original_tz transformation resampling_config : pyobj)
    : SeriesSpecs :=
  SeriesSpecs_init (DFFileSeriesSpecs_ file_path column)
    name original_tz transformation resampling_config.

(** [DBSeriesSpecs.__init__] *)
Definition DBSeriesSpecs_init
    (db_engine query name original_tz transformation resampling_config : pyobj)
    : SeriesSpecs :=
  SeriesSpecs_init (DBSeriesSpecs_ db_engine query)
    name original_tz transformation resampling_config.

(** ** The module namespace *)

Inductive ClassTag :=
| CSeriesSpecs
| CObjectSeriesSpecs
| CCSVFileSeriesSpecs
| CDFFileSeriesSpecs
| CDBSeriesSpecs.

(** What a name of the module is bound to: one of the series spec classes,
    some other callable, or an object that cannot be called. *)
Inductive Global :=
| GClass (c : ClassTag)
| GCallable
| GObject (type_name : string).

(** [globals()] of [speccing.py]. *)
Definition module_globals : gmap string Global :=
  list_to_map
    [ ("__name__", GObject "str"); ("__doc__", GObject "NoneType");
      ("__package__", GObject "str"); ("__loader__", GObject "SourceFileLoader");
      ("__spec__", GObject "ModuleSpec"); ("__file__", GObject "str");
      ("__cached__", GObject "str"); ("__builtins__", GObject "dict");
      ("List", GCallable); ("Optional", GCallable); ("Tuple", GCallable);
      ("Type", GCallable); ("Union", GCallable); ("Dict", GCallable);
      ("Any", GCallable);
      ("datetime", GCallable); ("timedelta", GCallable); ("tzinfo", GCallable);
      ("pformat", GCallable);
      ("json", GObject "module"); ("warnings", GObject "module");
      ("logging", GObject "module"); ("inspect", GObject "module");
      ("pytz", GObject "module"); ("dateutil", GObject "module");
      ("np", GObject "module"); ("pd", GObject "module");
      ("Engine", GCallable); ("Query", GCallable);
      ("postgresql", GObject "module");
      ("render_query", GCallable); ("tz_aware_utc_now", GCallable);
      ("timedelta_to_pandas_freq_str", GCallable);
      ("timedelta_fits_into", GCallable);
      ("IncompatibleModelSpecs", GCallable); ("Transformation", GCallable);
      ("DEFAULT_RATIO_TRAINING_TESTING_DATA", GObject "float");
      ("DEFAULT_REMODELING_FREQUENCY", GObject "datetime.timedelta");
      ("logger", GObject "Logger");
      ("SeriesSpecs", GClass CSeriesSpecs);
      ("ObjectSeriesSpecs", GClass CObjectSeriesSpecs);
      ("CSVFileSeriesSpecs", GClass CCSVFileSeriesSpecs);
      ("DFFileSeriesSpecs", GClass CDFFileSeriesSpecs);
      ("DBSeriesSpecs", GClass CDBSeriesSpecs);
      ("ModelSpecs", GCallable);
      ("parse_series_specs", GCallable);
      ("load_series_specs_from_json", GCallable) ].

(** The names that are series spec kinds. *)
Definition series_kinds : list string :=
  [ "SeriesSpecs"; "ObjectSeriesSpecs"; "CSVFileSeriesSpecs";
    "DFFileSeriesSpecs"; "DBSeriesSpecs" ].

(** ** Calling a class with keyword arguments *)

Definition unexpected_kwarg (params : list string) (kwargs : gmap string pyobj)
    : option string :=
  fst <$> head (filter (fun kv => kv.1 ∉ params) (map_to_list kwargs)).

Definition missing_arg (required : list string) (kwargs : gmap string pyobj)
    : option string :=
  head (filter (fun k => kwargs !! k = None) required).

Definition check_signature (params required : list string)
    (kwargs : gmap string pyobj) : Result () :=
  match unexpected_kwarg params kwargs with
  | Some k =>
      Raise (TypeError ("__init__() got an unexpected keyword argument '" ++ k ++ "'"))
  | None =>
      match missing_arg required kwargs with
      | Some k =>
          Raise (TypeError
            ("__init__() missing 1 required positional argument: '" ++ k ++ "'"))
      | None => Ok ()
      end
  end.

Definition base_params : list string :=
  [ "name"; "original_tz"; "transformation"; "resampling_config" ].

(** Calling [series_class] with the keyword arguments [kwargs]. *)
Definition construct (c : ClassTag) (kwargs : gmap string pyobj) (h : list Series)
    : Result SeriesSpecs :=
  let kw k d := default d (kwargs !! k) in
  match c with
  | CSeriesSpecs | CCSVFileSeriesSpecs =>
      match check_signature base_params ["name"] kwargs with
      | Raise e => Raise e
      | Ok _ =>
          Ok (SeriesSpecs_init
                (match c with CCSVFileSeriesSpecs => CSVFileSeriesSpecs_
                            | _ => SeriesSpecs_ end)
                (kw "name" ONone) (kw "original_tz" ONone)
                (kw "transformation" ONone) (kw "resampling_config" ONone))
      end
  | CObjectSeriesSpecs =>
      match check_signature ("data" :: base_params) ["data"; "name"] kwargs with
      | Raise e => Raise e
      | Ok _ =>
          ObjectSeriesSpecs_init h (kw "data" ONone)
            (kw "name" ONone) (kw "original_tz" ONone)
            (kw "transformation" ONone) (kw "resampling_config" ONone)
      end
  | CDFFileSeriesSpecs =>
      match check_signature ("file_path" :: "column" :: base_params)
              ["file_path"; "name"] kwargs with
      | Raise e => Raise e
      | Ok _ =>
          Ok (DFFileSeriesSpecs_init (kw "file_path" ONone)
                (kw "name" ONone) (kw "column" ONone) (kw "original_tz" ONone)
                (kw "transformation" ONone) (kw "resampling_config" ONone))
      end
  | CDBSeriesSpecs =>
      match check_signature ("db_engine" :: "query" :: base_params)
              ["db_engine"; "query"] kwargs with
      | Raise e => Raise e
      | Ok _ =>
          Ok (DBSeriesSpecs_init (kw "db_engine" ONone) (kw "query" ONone)
                (kw "name" (OStr "value")) (kw "original_tz" (OTz pytz_utc))
                (kw "transformation" ONone) (kw "resampling_config" ONone))
      end
  end.

(** ** Serialisation *)

(** [vars(self)] *)
Definition class_vars (c : SeriesClass) : gmap string pyobj :=
  match c with
  | SeriesSpecs_ | CSVFileSeriesSpecs_ => ∅
  | ObjectSeriesSpecs_ data => {[ "data" := OSeries data ]}
  | DFFileSeriesSpecs_ file_path column =>
      <["file_path" := file_path]> {[ "column" := column ]}
  | DBSeriesSpecs_ db_engine query =>
      <["db_engine" := db_engine]> {[ "query" := query ]}
  end.

Definition as_dict (s : SeriesSpecs) : gmap string pyobj :=
  <["name" := name s]>
    (<["original_tz" := original_tz s]>
      (<["transformation" := transformation s]>
        (<["resampling_config" := resampling_config s]>
          (<["__series_type__" := OStr (series_type s)]>
            (class_vars (class s)))))).

(** Modelled from the spec: the JSON encoder that writes the attribute
    dictionary of a spec is not among the sources. Following section 6 of
    the spec, a timezone is written as its name, a series as its values and
    its index normalised to UTC, without loss, a transformation as its
    parameters; strings, numbers, dictionaries and [None] are written as
    they are, and nothing else can be written. *)
Definition json_serialisable (h : list Series) (v : pyobj) : bool :=
  match v with
  | OQuery _ | OForeign _ => false
  | OSeries l =>
      match h !! l with
      | Some {| index := DatetimeIdx _ |} => true
      | _ => false
      end
  | _ => true
  end.

Definition to_json (h : list Series) (v : pyobj) : pyobj :=
  match v with
  | OTz z => OStr (zone z)
  | OTransformation t => ODict (params t)
  | OSeries l =>
      match h !! l with
      | Some {| index := DatetimeIdx idx; values := vals |} =>
          OSeriesJson (stamps idx) vals
      | _ => ONone
      end
  | v => v
  end.

Definition encode (h : list Series) (s : SeriesSpecs) : Result (gmap string pyobj) :=
  if forallb (fun kv => json_serialisable h kv.2) (map_to_list (as_dict s))
  then Ok (to_json h <$> as_dict s)
  else Raise (TypeError "Object is not JSON serializable").

(** [pd.read_json(text, typ="series", convert_dates=True)]: the index comes
    back as naive stamps that are UTC. *)
Definition read_json (text : pyobj) : Result Series :=
  match text with
  | OSeriesJson epochs vals =>
      Ok {| index := DatetimeIdx {| stamps := epochs; tz := None; freq := None |};
            values := vals |}
  | _ => Raise (ValueError "Expected object or value")
  end.

(** What decoding returns: a spec, or whatever another callable of the
    module returned. *)
Inductive Decoded :=
| DSpecs (s : SeriesSpecs)
| DObject (o : pyobj).

Section Decoding.
Context `{Runtime}.

(** [DatetimeIndex.tz_localize] with the zone given as Python gives it. *)
Definition Index_tz_localize (idx : DatetimeIndex) (z : pyobj)
    : Result DatetimeIndex :=
  match z with
  | ONone => Ok idx
  | OTz z' => Ok (tz_localize idx (Some z'))
  | OStr zone_name =>
      match timezones !! zone_name with
      | Some off =>
          Ok (tz_localize idx (Some {| zone := zone_name; utcoffset := off |}))
      | None => Raise (UnknownTimeZoneError zone_name)
      end
  | other => Raise (TypeError ("tz argument must be a timezone, not "
                               ++ type_name_of other))
  end.

(** The items of [json_repr] whose key does not start with two
    underscores. *)
Definition public_items (json_repr : gmap string pyobj) : gmap string pyobj :=
  filter (fun kv => String.prefix "__" kv.1 = false) json_repr.

(** The branch for [ObjectSeriesSpecs]: the series is read from its JSON
    text and its index is localised to [original_tz]. *)
Definition decode_data (json_repr : gmap string pyobj) (h : list Series)
    : Result (gmap string pyobj) * list Series :=
  match json_repr !! "data" with
  | None => (Raise (KeyError "data"), h)
  | Some text =>
      match read_json text with
      | Raise e => (Raise e, h)
      | Ok series =>
          let l := length h in
          let h1 := (h ++ [series])%list in
          let json_repr := <["data" := OSeries l]> json_repr in
          match index series, json_repr !! "original_tz" with
          | _, None => (Raise (KeyError "original_tz"), h1)
          | OtherIdx _ _, Some _ =>
              (Raise (AttributeError "'Index' object has no attribute 'tz_localize'"), h1)
          | DatetimeIdx idx, Some z =>
              match Index_tz_localize idx z with
              | Raise e => (Raise e, h1)
              | Ok idx' =>
                  (Ok json_repr,
                   <[l := {| index := DatetimeIdx idx'; values := values series |}]> h1)
              end
          end
      end
  end.

(** [load_series_specs_from_json], on the dictionary that [json.loads]
    returns. *)
Definition load_series_specs_from_json (json_repr : gmap string pyobj)
    (h : list Series) : Result Decoded * list Series :=
  match json_repr !! "__series_type__" with
  | None => (Raise (KeyError "__series_type__"), h)
  | Some (OStr series_type) =>
      match module_globals !! series_type with
      | None => (Raise (KeyError series_type), h)
      | Some series_class =>
          let '(r, h') :=
            match series_class with
            | GClass CObjectSeriesSpecs => decode_data json_repr h
            | _ => (Ok json_repr, h)
            end in
          match r with
          | Raise e => (Raise e, h')
          | Ok json_repr =>
              let kwargs := public_items json_repr in
              match series_class with
              | GClass c =>
                  match construct c kwargs h' with
                  | Ok s => (Ok (DSpecs s), h')
                  | Raise e => (Raise e, h')
                  end
              | GCallable =>
                  match call_global series_type kwargs with
                  | Ok o => (Ok (DObject o), h')
                  | Raise e => (Raise e, h')
                  end
              | GObject type_name =>
                  (Raise (TypeError ("'" ++ type_name ++ "' object is not callable")), h')
              end
          end
      end
  | Some (ODict _) => (Raise (TypeError "unhashable type: 'dict'"), h)
  | Some other => (Raise (KeyError (type_name_of other)), h)
  end.

End Decoding.

(** ** Model specs *)

(** Modelled from the spec: [utils.time_utils.timedelta_fits_into] is not
    among the sources. Section 3 of the spec asks that the training and
    testing period be an exact multiple of the frequency, so the short
    duration fits when it divides the long one without remainder. *)
Definition timedelta_fits_into (short_td long_td : Z) : bool :=
  long_td mod short_td =? 0.

(** [a - b] on datetimes. *)
Definition datetime_sub (a b : pydatetime) : Result Z :=
  match dt_tz a, dt_tz b with
  | None, None | Some _, Some _ => Ok (dt_micros a - dt_micros b)
  | _, _ => Raise (TypeError "can't subtract offset-naive and offset-aware datetimes")
  end.

(** What may be given for a series: a JSON string (seen as the dictionary
    it parses to), a spec, or a pandas series. *)
Inductive series_arg :=
| ArgJson (json_repr : gmap string pyobj)
| ArgSpecs (s : SeriesSpecs)
| ArgSeries (l : loc).

Module Model.

Record ModelSpecs := {
  outcome_var : Decoded;
  model_type : string;
  model_params : gmap string pyval;
  frequency : Z;
  horizon : Z;
  lags : list Z;
  regressors : list Decoded;
  start_of_training : pydatetime;
  end_of_testing : pydatetime;
  ratio_training_testing_data : F64.t;
  creation_time : pydatetime;
  model_filename : option string;
  remodel_frequency : Z
}.

(** The arguments of [ModelSpecs.__init__]. *)
Record Args := {
  a_outcome_var : series_arg;
  a_model : string * option (gmap string pyval);
  a_start_of_training : string + pydatetime;
  a_end_of_testing : string + pydatetime;
  a_frequency : Z;
  a_horizon : Z;
  a_lags : option (list Z);
  a_regressors : option (list series_arg);
  a_ratio_training_testing_data : F64.t;
  a_remodel_frequency : string + Z;
  a_model_filename : option string;
  a_creation_time : option (string + pydatetime)
}.

Definition str_datetime (d : pydatetime) : string := str_of_Z (dt_micros d).

(** The message of the frequency check; dates and durations are printed
    as their count of microseconds. *)
Definition period_msg (start_ end_ : pydatetime) (freq : Z) : string :=
  "Training & testing period (" ++ str_datetime start_ ++ " to "
    ++ str_datetime end_ ++ ") does not fit with frequency ("
    ++ str_of_Z freq ++ ")".

Section Init.
Context `{Runtime}.

Definition parse_series_specs (specs : series_arg) (name : string)
    (h : list Series) : Result Decoded * list Series :=
  match specs with
  | ArgJson json_repr => load_series_specs_from_json json_repr h
  | ArgSeries l =>
      match ObjectSeriesSpecs_init h (OSeries l) (OStr name) ONone ONone ONone with
      | Ok s => (Ok (DSpecs s), h)
      | Raise e => (Raise e, h)
      end
  | ArgSpecs s => (Ok (DSpecs s), h)
  end.

(** The comprehension over [regressors]; the name of a regressor is
    its position, which is what [regressors.index(r) + 1] gives in a
    list without repeated elements. *)
Fixpoint parse_regressors (position : Z) (rs : list series_arg)
    (h : list Series) : Result (list Decoded) * list Series :=
  match rs with
  | [] => (Ok [], h)
  | r :: rs' =>
      match parse_series_specs r ("Regressor" ++ str_of_Z position) h with
      | (Raise e, h') => (Raise e, h')
      | (Ok d, h') =>
          match parse_regressors (position + 1) rs' h' with
          | (Raise e, h'') => (Raise e, h'')
          | (Ok ds, h'') => (Ok (d :: ds), h'')
          end
      end
  end.

Definition parse_datetime (d : string + pydatetime) : Result pydatetime :=
  match d with
  | inl s =>
      match dateutil_parse s with
      | Some t => Ok t
      | None => Raise (ValueError ("Unknown string format: " ++ s))
      end
  | inr t => Ok t
  end.

(** [timedelta(days=int(remodel_frequency) / 60 / 60 / 24)]: the string
    counts seconds. The division is a float division; the result is
    the exact number of seconds as long as it stays below some
    decades. *)
Definition parse_remodel_frequency (r : string + Z) : Result Z :=
  match r with
  | inl s =>
      match NilZero.int_of_string s with
      | Some d => Ok (Z.of_int d * 1000000)
      | None => Raise (ValueError ("invalid literal for int() with base 10: '" ++ s ++ "'"))
      end
  | inr t => Ok t
  end.

(** [ModelSpecs.__init__] *)
Definition init (a : Args) (h : list Series) : Result ModelSpecs * list Series :=
  match parse_series_specs (a_outcome_var a) "y" h with
  | (Raise e, h) => (Raise e, h)
  | (Ok outcome, h) =>
  let lags_ := default [] (a_lags a) in
  match match a_regressors a with
        | None => (Ok [], h)
        | Some rs => parse_regressors 1 rs h
        end with
  | (Raise e, h) => (Raise e, h)
  | (Ok regs, h) =>
  match parse_datetime (a_start_of_training a) with
  | Raise e => (Raise e, h)
  | Ok start_ =>
  match parse_datetime (a_end_of_testing a) with
  | Raise e => (Raise e, h)
  | Ok end_ =>
  (* check if training + testing period is compatible with frequency *)
  match datetime_sub end_ start_ with
  | Raise e => (Raise e, h)
  | Ok period =>
  if negb (timedelta_fits_into (a_frequency a) period) then
    (Raise (IncompatibleModelSpecs (period_msg start_ end_ (a_frequency a))), h)
  else
  match match a_creation_time a with
        | Some c => parse_datetime c
        | None => Ok tz_aware_utc_now
        end with
  | Raise e => (Raise e, h)
  | Ok created =>
  match parse_remodel_frequency (a_remodel_frequency a) with
  | Raise e => (Raise e, h)
  | Ok remodel =>
      (Ok {| outcome_var := outcome;
             model_type := fst (a_model a);
             model_params := default ∅ (snd (a_model a));
             frequency := a_frequency a;
             horizon := a_horizon a;
             lags := lags_;
             regressors := regs;
             start_of_training := start_;
             end_of_testing := end_;
             ratio_training_testing_data := a_ratio_training_testing_data a;
             creation_time := created;
             model_filename := a_model_filename a;
             remodel_frequency := remodel |}, h)
  end end end end end end end.

End Init.

End Model.

(** ** Rolling forecasts *)

Module Forecasting.

(** How building a feature row can fail: the lag history does not reach
    back far enough, or something else went wrong. *)
Inductive failure :=
| InsufficientHistory
| Failure (e : exn).

Section Rolling.
Context {Features Handle : Type}.

(** The collaborators of the engine: the feature frame builder for one
    tick, the fitter on the data before a tick, and the forecast of a
    fitted model on one row. *)
Variable feature_row : Z -> failure + Features.
Variable fit : Z -> Handle.
Variable make_forecast_for : Handle -> Features -> F64.t.

Variable frequency : Z.
Variable remodel_frequency : Z.

Record ModelState := {
  model : Handle;
  fitted_at : Z
}.

(** Modelled from the spec: [forecasting.make_rolling_forecasts] is not
    among the sources. Section 4.5 of the spec has it walk one step
    per tick and, at a tick: build the feature row, skipping the tick
    when the lag history is insufficient; refit when the time since
    the model was fitted has reached the remodel frequency; forecast
    with the current model; append. *)
Fixpoint rolling (ticks : nat) (t : Z) (state : ModelState)
    : Result (list (Z * F64.t) * ModelState) :=
  match ticks with
  | O => Ok ([], state)
  | S ticks' =>
      match feature_row t with
      | inl InsufficientHistory => rolling ticks' (t + frequency) state
      | inl (Failure e) => Raise e
      | inr row =>
          let state' :=
            if remodel_frequency <=? t - fitted_at state
            then {| model := fit t; fitted_at := t |}
            else state in
          match rolling ticks' (t + frequency) state' with
          | Raise e => Raise e
          | Ok (forecasts, final) =>
              Ok ((t, make_forecast_for (model state') row) :: forecasts, final)
          end
      end
  end.

(** The number of ticks in [[start, end_)]. *)
Definition tick_count (start end_ : Z) : nat :=
  Z.to_nat ((end_ - start + frequency - 1) / frequency).

Definition make_rolling_forecasts (start end_ : Z) (state : ModelState)
    : Result (list (Z * F64.t) * ModelState) :=
  rolling (tick_count start end_) start state.

(** The ticks of the range, and those whose feature row is complete. *)
Definition ticks (start end_ : Z) : list Z :=
  edges start frequency (tick_count start end_).

Definition complete (t : Z) : bool :=
  match feature_row t with inr _ => true | inl _ => false end.

End Rolling.

End Forecasting.

(** ** A concrete runtime

    No pickles on disk, a resampler with the usual reductions, merge sort
    for [sort_values], three zones, and a date parser that knows no
    format. *)

Definition sum_of (vs : list F64.t) : F64.t :=
  fold_left F64.add (filter (fun v => Is_true (negb (F64.isnan v))) vs) F64.zero.

Definition count_of (vs : list F64.t) : F64.t :=
  F64.of_Z (Z.of_nat (length (filter (fun v => Is_true (negb (F64.isnan v))) vs))).

Definition first_of (vs : list F64.t) : F64.t :=
  default F64.nan (head (filter (fun v => Is_true (negb (F64.isnan v))) vs)).

Definition last_of (vs : list F64.t) : F64.t :=
  default F64.nan (last (filter (fun v => Is_true (negb (F64.isnan v))) vs)).

Definition example_members : list (string * (Resampler -> Result Series)) :=
  [ ("count", fun r => Ok (aggregate count_of r));
    ("first", fun r => Ok (aggregate first_of r));
    ("last", fun r => Ok (aggregate last_of r));
    ("mean", Resampler_mean);
    ("sum", fun r => Ok (aggregate sum_of r)) ].

Definition key_le (key : Row -> Z) (a b : Row) : Prop := key a <= key b.

#[local] Instance key_le_dec key a b : Decision (key_le key a b) :=
  Z_le_dec (key a) (key b).

Definition example_timezones : gmap string Z :=
  list_to_map
    [ ("UTC", 0); ("Etc/GMT-1", 3600000000000); ("Etc/GMT+5", -18000000000000) ].

(** Of the other callables of the module, [timedelta] with a number of
    days returns; every other call is refused. *)
Definition example_call (callee : string) (kwargs : gmap string pyobj)
    : Result pyobj :=
  if String.eqb callee "timedelta" then
    match map_to_list kwargs with
    | [("days", OInt d)] => Ok (OForeign ("datetime.timedelta(days=" ++ str_of_Z d ++ ")"))
    | _ => Raise (TypeError "unsupported arguments for timedelta()")
    end
  else Raise (TypeError (callee ++ "() cannot be called with these arguments")).

Definition example_runtime : Runtime :=
  {| pickles := ∅;
     getmembers := example_members;
     sort_values := fun key => merge_sort (key_le key);
     sort_values_perm := fun key l => merge_sort_Permutation (key_le key) l;
     sort_values_sorted := fun key l =>
       @StronglySorted_merge_sort _ (key_le key) _
         (fun a b c => Z.le_trans (key a) (key b) (key c))
         (fun a b => Z.le_ge_cases (key a) (key b)) l;
     timezones := example_timezones;
     call_global := example_call;
     dateutil_parse := fun _ => None;
     tz_aware_utc_now := {| dt_micros := 1548169200000000; dt_tz := Some pytz_utc |} |}.

(** ** Observers used in the statements *)

(** The index of a loaded series once it has a time zone. *)
Definition localized (idx : DatetimeIndex) : DatetimeIndex :=
  match tz idx with
  | None => tz_localize idx (Some pytz_utc)
  | Some _ => idx
  end.

(** Does the frequency of the index read the same as the expected one? *)
Definition freq_matches (expected_frequency : Z) (idx : DatetimeIndex) : bool :=
  match freq idx with
  | Some f => String.eqb (freqstr f) (timedelta_to_pandas_freq_str expected_frequency)
  | None => false
  end.

(** What a call returns, with the series it refers to. *)
Definition output {A} (r : Result loc * A) (h : list Series) : Result Series :=
  match fst r with
  | Ok l =>
      match h !! l with
      | Some s => Ok s
      | None => Raise DanglingReference
      end
  | Raise e => Raise e
  end.

Section Observers.
Context `{Runtime}.

(** The series that [_load_series] hands to [load_series]. *)
Definition raw_series (st : PyState) : option Series :=
  match _load_series st with
  | (Ok l, st') => heap st' !! l
  | (Raise _, _) => None
  end.

(** [load_series] as a function of the raw series alone. *)
Definition loaded (config transformation_ : pyobj) (expected_frequency : Z)
    (raw : Series) : Result Series :=
  match index raw with
  | OtherIdx type_name _ =>
      Raise (IncompatibleModelSpecs
        ("Loaded series has no DatetimeIndex, but " ++ type_name))
  | DatetimeIdx idx0 =>
      let idx := localized idx0 in
      match stamps idx with
      | [] => Raise (ValueError no_values_msg)
      | _ =>
          if existsb F64.isnan (values raw) then Raise (ValueError nan_values_msg)
          else
            match freq idx with
            | None =>
                Raise (AttributeError "'NoneType' object has no attribute 'freqstr'")
            | Some f =>
                match
                  (if String.eqb (freqstr f)
                        (timedelta_to_pandas_freq_str expected_frequency)
                   then Ok {| index := DatetimeIdx idx; values := values raw |}
                   else resample_with config idx (values raw) expected_frequency)
                with
                | Raise e => Raise e
                | Ok series =>
                    match transformation_ with
                    | ONone => Ok series
                    | OTransformation t =>
                        new_Series (index series) (transform t (values series))
                    | other => Raise (no_attribute other "transform")
                    end
                end
            end
      end
  end.

(** Every method of the resampler that returns is a reduction over the
    buckets. *)
Definition reductions_only : Prop :=
  forall agg_name agg_method r s,
    (agg_name, agg_method) ∈ getmembers ->
    agg_method r = Ok s ->
    exists reduce, s = aggregate reduce r.

End Observers.

(** The shape that a loaded series has: a timezone-aware time index,
    strictly increasing, spaced by the expected frequency, one value per
    stamp. *)
Definition canonical (expected_frequency : Z) (s : Series) : Prop :=
  exists idx,
    index s = DatetimeIdx idx /\
    is_Some (tz idx) /\
    StronglySorted Z.lt (stamps idx) /\
    regular (1000 * expected_frequency) (stamps idx) /\
    length (stamps idx) = length (values s).

(** Would [load_series] resample this raw series? *)
Definition needs_resampling (expected_frequency : Z) (raw : Series) : bool :=
  match index raw with
  | DatetimeIdx idx => negb (freq_matches expected_frequency idx)
  | OtherIdx _ _ => false
  end.

(** [self] with another resampling configuration and transformation. *)
Definition reconfigured (st : PyState) (config transformation_ : pyobj) : PyState :=
  {| self := {| name := name (self st);
                original_tz := original_tz (self st);
                transformation := transformation_;
                resampling_config := config;
                class := class (self st) |};
     heap := heap st |}.

(** * Properties *)

(** ** Frequency strings *)

Lemma split_last_snoc s c :
  split_last (s ++ String c EmptyString) = Some (s, c).
Proof.
  induction s as [|a s IH]; simpl.
  - reflexivity.
  - rewrite IH. reflexivity.
Qed.

Lemma rule_code_single u : exists c,
  rule_code u = String c EmptyString /\ unit_of_code c = Some u.
Proof. destruct u; eexists; split; reflexivity. Qed.

Lemma to_int_not_nil z :
  Z.to_int z <> Decimal.Pos Decimal.Nil /\ Z.to_int z <> Decimal.Neg Decimal.Nil.
Proof.
  destruct z; simpl; split; try discriminate;
    intros [= E]; exact (DecimalPos.Unsigned.to_uint_nonnil _ E).
Qed.

Lemma str_of_Z_parse z :
  NilZero.int_of_string (str_of_Z z) = Some (Z.to_int z) /\ str_of_Z z <> EmptyString.
Proof.
  destruct (to_int_not_nil z) as [Hp Hn].
  assert (E := NilZero.isi (Z.to_int z) Hp Hn).
  split; [exact E|].
  unfold str_of_Z. intros Hs. rewrite Hs in E. discriminate.
Qed.

Lemma to_offset_freqstr f : to_offset (freqstr f) = Some f.
Proof.
  destruct f as [u k]. unfold freqstr, to_offset; simpl.
  destruct (rule_code_single u) as (c & Hc & Hu).
  destruct (Z.eqb_spec k 1) as [->|Hk].
  - rewrite Hc. simpl. rewrite Hu. reflexivity.
  - rewrite Hc, split_last_snoc, Hu.
    destruct (str_of_Z_parse k) as [Hp Hne].
    destruct (str_of_Z k) eqn:E; [congruence|].
    rewrite Hp, DecimalZ.of_to. reflexivity.
Qed.

Lemma freqstr_inj f g : freqstr f = freqstr g -> f = g.
Proof.
  intros E. assert (Some f = Some g) as [= ->]; [|reflexivity].
  rewrite <- !to_offset_freqstr, E. reflexivity.
Qed.

Lemma div_exact_mul a b : b <> 0 -> a mod b = 0 -> a / b * b = a.
Proof.
  intros Hb Hm. pose proof (Z.div_mod a b Hb). lia.
Qed.

Lemma delta_to_tick_nanos delta : nanos (delta_to_tick delta) = 1000 * delta.
Proof.
  unfold delta_to_tick, nanos.
  destruct (Z.eqb_spec (delta mod 1000000) 0) as [E0|E0].
  - pose proof (div_exact_mul delta 1000000 ltac:(lia) E0) as D.
    set (seconds := delta / 1000000) in *.
    destruct (Z.eqb_spec (seconds mod 86400) 0) as [E1|E1];
      [|destruct (Z.eqb_spec (seconds mod 3600) 0) as [E2|E2];
        [|destruct (Z.eqb_spec (seconds mod 60) 0) as [E3|E3]]];
      cbn [n unit unit_nanos].
    + pose proof (div_exact_mul seconds 86400 ltac:(lia) E1). lia.
    + pose proof (div_exact_mul seconds 3600 ltac:(lia) E2). lia.
    + pose proof (div_exact_mul seconds 60 ltac:(lia) E3). lia.
    + lia.
  - destruct (Z.eqb_spec ((delta * 1000) mod 1000000) 0) as [E1|E1];
      cbn [n unit unit_nanos].
    + pose proof (div_exact_mul (delta * 1000) 1000000 ltac:(lia) E1). lia.
    + rewrite Z.div_mul by lia. lia.
Qed.

(** ** The effect and the result of [load_series] *)

Definition with_original_tz (s : SeriesSpecs) (z : pyobj) : SeriesSpecs :=
  {| name := name s;
     original_tz := z;
     transformation := transformation s;
     resampling_config := resampling_config s;
     class := class s |}.

Definition relocalized (raw : Series) (idx0 : DatetimeIndex) : Series :=
  {| index := DatetimeIdx (localized idx0); values := values raw |}.

Section LoadSeries.
Context `{Runtime}.

Lemma _load_series_self st r st1 :
  _load_series st = (r, st1) -> self st1 = self st.
Proof.
  unfold _load_series, bind, get_self, alloc, ret, lift, raise.
  destruct (class (self st)) as [|data| |file_path column|db_engine query]; simpl.
  - intros [= <- <-]. reflexivity.
  - intros [= <- <-]. reflexivity.
  - intros [= <- <-]. reflexivity.
  - destruct (DFFile_load_series file_path column); intros [= <- <-]; reflexivity.
  - destruct query; simpl; try (intros [= <- <-]; reflexivity).
    destruct (DB_load_series q); intros [= <- <-]; reflexivity.
Qed.

Lemma _load_series_raises f st e st1 :
  _load_series st = (Raise e, st1) -> load_series f st = (Raise e, st1).
Proof.
  intros E. unfold load_series, bind. rewrite E. reflexivity.
Qed.

Lemma lookup_snoc (h : list Series) s : (h ++ [s])%list !! length h = Some s.
Proof. apply list_lookup_middle. reflexivity. Qed.

Lemma load_series_run f st data st1 raw idx0 :
  _load_series st = (Ok data, st1) ->
  heap st1 !! data = Some raw ->
  index raw = DatetimeIdx idx0 ->
  exists extra,
    snd (load_series f st) =
      {| self := with_original_tz (self st) (OTz (default pytz_utc (tz idx0)));
         heap := (<[data := relocalized raw idx0]> (heap st1) ++ extra)%list |} /\
    output (load_series f st) (heap (snd (load_series f st))) =
      loaded (resampling_config (self st)) (transformation (self st)) f raw /\
    (forall l, fst (load_series f st) = Ok l ->
               is_Some (heap (snd (load_series f st)) !! l)).
Proof.
  intros Hload Hraw Hidx.
  pose proof (_load_series_self _ _ _ Hload) as Hself.
  assert (Hlt : (data < length (heap st1))%nat) by (eapply lookup_lt_Some; eauto).
  assert (Hre : tz idx0 <> None ->
            <[data := relocalized raw idx0]> (heap st1) = heap st1).
  { intros Hz. apply list_insert_id. etrans; [exact Hraw|]. f_equal.
    unfold relocalized, localized. destruct (tz idx0); [|congruence].
    destruct raw; simpl in *; congruence. }
  unfold load_series, loaded, bind. rewrite Hload.
  unfold deref. rewrite Hraw, Hidx.
  set (st2 := {| self := with_original_tz (self st) (OTz (default pytz_utc (tz idx0)));
                 heap := <[data := relocalized raw idx0]> (heap st1) |}).
  assert (Htzstep : ensure_timezone data idx0 st1 = (Ok (localized idx0), st2)).
  { unfold ensure_timezone, bind, localized, st2, set_original_tz, set_index,
      ret, with_original_tz.
    destruct (tz idx0) as [z|] eqn:Htz; cbn [heap self].
    - rewrite Hre by congruence. rewrite Hself. reflexivity.
    - rewrite Hraw. rewrite Hself. unfold relocalized, localized.
      rewrite Htz. reflexivity. }
  rewrite Htzstep. clear Htzstep.
  assert (Hdata : heap st2 !! data = Some (relocalized raw idx0)).
  { unfold st2; cbn [heap]. apply list_lookup_insert_eq. exact Hlt. }
  assert (Hraised : forall e,
    exists extra,
      snd (@Raise loc e, st2) =
        {| self := self st2; heap := (heap st2 ++ extra)%list |} /\
      output (@Raise loc e, st2) (heap (snd (@Raise loc e, st2))) = Raise e /\
      (forall l, fst (@Raise loc e, st2) = Ok l ->
                 is_Some (heap (snd (@Raise loc e, st2)) !! l))).
  { intros e. exists []. rewrite app_nil_r. repeat split. intros l [=]. }
  destruct (stamps (localized idx0)) as [|t0 ts] eqn:Hstamps; [apply Hraised|].
  destruct (existsb F64.isnan (values raw)) eqn:Hnan; [apply Hraised|].
  destruct (freq (localized idx0)) as [f0|] eqn:Hfreq; [|apply Hraised].
  unfold resample_data, bind, get_self, lift, alloc, ret, raise.
  destruct (freqstr f0 =? timedelta_to_pandas_freq_str f)%string.
  - cbn [self heap st2 with_original_tz transformation].
    destruct (transformation (self st)) eqn:Htr; try apply Hraised.
    + exists []. rewrite app_nil_r. split; [reflexivity|].
      pose proof Hdata as Hdata'. unfold st2 in Hdata'; cbn [heap] in Hdata'.
      unfold output; cbn [fst snd heap]. rewrite ?Hdata, ?Hdata'.
      split; [reflexivity|]. intros l [= <-]. rewrite ?Hdata, ?Hdata'. eauto.
    + cbn [index values].
      destruct (new_Series (DatetimeIdx (localized idx0)) (transform t (values raw)))
        as [tr|e] eqn:Hnew; [|apply Hraised].
      exists [tr]. split; [reflexivity|].
      unfold output; cbn [fst snd heap]. rewrite lookup_snoc.
      split; [reflexivity|]. intros l [= <-]. rewrite lookup_snoc. eauto.
  - cbn [self heap st2 with_original_tz transformation resampling_config].
    destruct (resample_with (resampling_config (self st)) (localized idx0)
                (values raw) f) as [rs|e] eqn:Hrs; [|apply Hraised].
    cbn [self heap transformation with_original_tz].
    assert (Hraised' : forall e,
      exists extra,
        snd (@Raise loc e, {| self := self st2; heap := (heap st2 ++ [rs])%list |}) =
          {| self := self st2; heap := (heap st2 ++ extra)%list |} /\
        output (@Raise loc e, {| self := self st2; heap := (heap st2 ++ [rs])%list |})
          (heap st2 ++ [rs])%list = Raise e /\
        (forall l, fst (@Raise loc e, {| self := self st2;
                                         heap := (heap st2 ++ [rs])%list |}) = Ok l ->
                   is_Some ((heap st2 ++ [rs])%list !! l))).
    { intros e. exists [rs]. repeat split. intros l [=]. }
    destruct (transformation (self st)) eqn:Htr; try apply Hraised'.
    + exists [rs]. split; [reflexivity|].
      unfold output; cbn [fst snd heap]. rewrite lookup_snoc.
      split; [reflexivity|]. intros l [= <-]. rewrite lookup_snoc. eauto.
    + destruct (new_Series (index rs) (transform t (values rs))) as [tr|e] eqn:Hnew;
        [|apply Hraised'].
      exists [rs; tr]. split.
      { cbn [snd heap]. f_equal. rewrite <- app_assoc. reflexivity. }
      unfold output; cbn [fst snd heap]. rewrite lookup_snoc.
      split; [reflexivity|]. intros l [= <-]. rewrite lookup_snoc. eauto.
Qed.

Lemma load_series_no_time_index f st data st1 raw type_name size :
  _load_series st = (Ok data, st1) ->
  heap st1 !! data = Some raw ->
  index raw = OtherIdx type_name size ->
  load_series f st =
    (Raise (IncompatibleModelSpecs
              ("Loaded series has no DatetimeIndex, but " ++ type_name)), st1).
Proof.
  intros Hload Hraw Hidx.
  unfold load_series, bind, deref. rewrite Hload, Hraw, Hidx. reflexivity.
Qed.

Lemma _load_series_object st l :
  class (self st) = ObjectSeriesSpecs_ l -> _load_series st = (Ok l, st).
Proof.
  intros Hc. unfold _load_series, bind, get_self, ret. cbn. rewrite Hc. reflexivity.
Qed.

End LoadSeries.

(** ** Regular indexes *)

Lemma regular_shift step c l :
  regular step l -> regular step (map (fun t => t + c) l).
Proof.
  induction l as [|t [|t' l] IH]; simpl; auto.
  intros [-> Hl]. split; [lia|]. apply IH. exact Hl.
Qed.

Lemma regular_edges start step k : regular step (edges start step k).
Proof.
  revert start. induction k as [|k IH]; intros start; simpl; auto.
  destruct k as [|k]; simpl; auto.
  split; [reflexivity|]. apply (IH (start + step)).
Qed.

Lemma regular_above step t l :
  0 < step -> regular step (t :: l) -> Forall (fun u => t < u) l.
Proof.
  intros Hstep. revert t. induction l as [|t' l IH]; intros t Hr.
  - constructor.
  - destruct Hr as [-> Hr]. constructor; [lia|].
    eapply Forall_impl; [apply (IH _ Hr)|]. simpl. intros u Hu. lia.
Qed.

Lemma regular_tail step t l : regular step (t :: l) -> regular step l.
Proof. destruct l; simpl; [auto|]. intros [_ Hr]. exact Hr. Qed.

Lemma regular_sorted step l :
  0 < step -> regular step l -> StronglySorted Z.lt l.
Proof.
  intros Hstep. induction l as [|t l IH]; intros Hr.
  - constructor.
  - constructor.
    + apply IH. eapply regular_tail; eauto.
    + eapply regular_above; eauto.
Qed.

Lemma localized_aware idx : is_Some (tz (localized idx)).
Proof.
  unfold localized. destruct (tz idx) eqn:E; simpl; rewrite ?E; eauto.
Qed.

Lemma localized_freq idx : freq (localized idx) = freq idx.
Proof. unfold localized. destruct (tz idx); reflexivity. Qed.

Lemma localized_length idx : length (stamps (localized idx)) = length (stamps idx).
Proof.
  unfold localized. destruct (tz idx); simpl; [reflexivity|]. apply length_map.
Qed.

Lemma localized_wf idx : wf_index idx -> wf_index (localized idx).
Proof.
  unfold wf_index. rewrite localized_freq.
  destruct (freq idx) as [f|]; [|auto].
  unfold localized. destruct (tz idx); simpl; [auto|].
  intros Hr. apply (regular_shift _ (- 0)) in Hr.
  erewrite map_ext; [exact Hr|]. intros t. simpl. lia.
Qed.

(** An index whose frequency reads like the expected one is spaced by it. *)
Lemma freq_matches_nanos expected_frequency idx :
  freq_matches expected_frequency idx = true ->
  freq idx = Some (delta_to_tick expected_frequency).
Proof.
  unfold freq_matches, timedelta_to_pandas_freq_str.
  destruct (freq idx) as [f|]; [|discriminate].
  intros E. apply String.eqb_eq, freqstr_inj in E. congruence.
Qed.

(** ** Resampling *)

Section Resampling.
Context `{Runtime}.

Lemma Series_resample_ok idx vals expected_frequency kwargs r :
  Series_resample idx vals (timedelta_to_pandas_freq_str expected_frequency) kwargs
    = Ok r ->
  r_rule r = delta_to_tick expected_frequency /\ r_tz r = tz idx /\
  r_stamps r = stamps idx /\ r_values r = vals.
Proof.
  unfold Series_resample, timedelta_to_pandas_freq_str.
  rewrite to_offset_freqstr.
  destruct (first_unknown_kwarg kwargs); [discriminate|].
  destruct (side_kwarg "closed" _); [|discriminate].
  destruct (side_kwarg "label" _); [|discriminate].
  destruct (nanos _ <=? 0); [discriminate|].
  intros [= <-]. repeat split.
Qed.

Lemma aggregate_canonical reduce r expected_frequency :
  0 < expected_frequency ->
  r_rule r = delta_to_tick expected_frequency ->
  is_Some (r_tz r) ->
  canonical expected_frequency (aggregate reduce r).
Proof.
  intros Hpos Hrule Htz.
  assert (Hreg : regular (1000 * expected_frequency)
                   (bucket_label r <$> bucket_edges r)).
  { rewrite <- delta_to_tick_nanos, <- Hrule.
    unfold bucket_label, bucket_edges.
    destruct (adjust_dates_anchored _ _ _ _ _) as [lo hi].
    destruct (r_label r).
    - erewrite (list_fmap_ext _ id); [rewrite list_fmap_id; apply regular_edges|].
      reflexivity.
    - apply regular_shift, regular_edges. }
  eexists. split; [reflexivity|]. cbn [tz stamps values aggregate].
  split; [exact Htz|]. split; [|split; [exact Hreg|]].
  - eapply regular_sorted; [|exact Hreg]. lia.
  - rewrite !length_fmap. reflexivity.
Qed.

Lemma find_member_elem agg members agg_method :
  find_member agg members = Some agg_method ->
  exists agg_name, (agg_name, agg_method) ∈ members.
Proof.
  induction members as [|[nm m] members IH]; simpl; [discriminate|].
  destruct agg; try (intros E; destruct (IH E) as [x Hx]; exists x; by right).
  destruct (String.eqb s nm).
  - intros [= ->]. exists nm. by left.
  - intros E; destruct (IH E) as [x Hx]; exists x; by right.
Qed.

Lemma resample_with_canonical config idx vals expected_frequency s :
  reductions_only ->
  0 < expected_frequency ->
  is_Some (tz idx) ->
  resample_with config idx vals expected_frequency = Ok s ->
  canonical expected_frequency s.
Proof.
  intros Hred Hpos Htz. unfold resample_with, Resampler_mean.
  destruct config; try discriminate.
  - destruct (Series_resample _ _ _ _) as [r|] eqn:Hr; [|discriminate].
    apply Series_resample_ok in Hr as (Hrule & Hrtz & _).
    intros [= <-]. apply aggregate_canonical; auto. rewrite Hrtz. exact Htz.
  - destruct (Series_resample _ _ _ _) as [r|] eqn:Hr; [|discriminate].
    apply Series_resample_ok in Hr as (Hrule & Hrtz & _).
    rewrite <- Hrtz in Htz.
    destruct (d !! "aggregation") as [agg|].
    + destruct (find_member agg getmembers) as [m|] eqn:Hm; [|discriminate].
      intros Hs. apply find_member_elem in Hm as [nm Hnm].
      destruct (Hred _ _ _ _ Hnm Hs) as [reduce ->].
      apply aggregate_canonical; auto.
    + intros [= <-]. apply aggregate_canonical; auto.
Qed.

End Resampling.

(** ** What a successful load guarantees *)

Section LoadedShape.
Context `{Runtime}.

Lemma new_Series_ok idx vals s :
  new_Series idx vals = Ok s ->
  index s = idx /\ values s = vals /\ Index_length idx = length vals.
Proof.
  unfold new_Series. destruct (Nat.eqb_spec (length vals) (Index_length idx));
    [|discriminate].
  intros [= <-]. auto.
Qed.

Lemma canonical_transformed expected_frequency s t s' :
  canonical expected_frequency s ->
  new_Series (index s) (transform t (values s)) = Ok s' ->
  canonical expected_frequency s'.
Proof.
  intros (idx & Hidx & Htz & Hsorted & Hreg & Hlen) Hnew.
  apply new_Series_ok in Hnew as (Hi & Hv & Hl).
  exists idx. rewrite Hi, Hv. repeat split; auto.
  rewrite Hidx in Hl. exact Hl.
Qed.

Lemma loaded_canonical config transformation_ expected_frequency raw idx0 s :
  0 < expected_frequency ->
  reductions_only ->
  wf_Series raw ->
  index raw = DatetimeIdx idx0 ->
  loaded config transformation_ expected_frequency raw = Ok s ->
  canonical expected_frequency s /\
  values raw <> [] /\
  existsb F64.isnan (values raw) = false /\
  (freq_matches expected_frequency idx0 = true -> transformation_ = ONone ->
   values s = values raw).
Proof.
  intros Hpos Hred [Hlen Hwf] Hidx. unfold loaded. rewrite Hidx in *.
  simpl in Hlen.
  destruct (stamps (localized idx0)) as [|t0 ts] eqn:Hstamps; [discriminate|].
  destruct (existsb F64.isnan (values raw)) eqn:Hnan; [discriminate|].
  destruct (freq (localized idx0)) as [f0|] eqn:Hfreq; [|discriminate].
  assert (Hne : values raw <> []).
  { intros E. rewrite E in Hlen. simpl in Hlen.
    pose proof (localized_length idx0) as Hl. rewrite Hstamps, Hlen in Hl.
    discriminate. }
  assert (Hm : freq_matches expected_frequency idx0 =
               String.eqb (freqstr f0) (timedelta_to_pandas_freq_str expected_frequency)).
  { unfold freq_matches. rewrite <- localized_freq, Hfreq. reflexivity. }
  rewrite <- Hm.
  destruct (freq_matches expected_frequency idx0) eqn:Hmatch.
  - assert (Hcan : canonical expected_frequency
                     {| index := DatetimeIdx (localized idx0); values := values raw |}).
    { exists (localized idx0). cbn [index values].
      apply freq_matches_nanos in Hmatch.
      apply localized_wf in Hwf. unfold wf_index in Hwf.
      rewrite localized_freq, Hmatch, delta_to_tick_nanos in Hwf.
      repeat split; auto using localized_aware.
      - eapply regular_sorted; [|exact Hwf]. lia.
      - rewrite localized_length. exact Hlen. }
    destruct transformation_; try discriminate.
    + intros [= <-]. auto.
    + intros Hnew. repeat split; auto; [|discriminate].
      eapply canonical_transformed; [exact Hcan|exact Hnew].
  - destruct (resample_with config (localized idx0) (values raw) expected_frequency)
      as [rs|] eqn:Hrs; [|discriminate].
    apply resample_with_canonical in Hrs; auto using localized_aware.
    destruct transformation_; try discriminate.
    + intros [= <-]. repeat split; auto; discriminate.
    + intros Hnew. repeat split; auto; [|discriminate].
      eapply canonical_transformed; [exact Hrs|exact Hnew].
Qed.

Lemma load_series_returns f st l st' :
  load_series f st = (Ok l, st') ->
  exists raw idx0 s,
    raw_series st = Some raw /\
    index raw = DatetimeIdx idx0 /\
    heap st' !! l = Some s /\
    loaded (resampling_config (self st)) (transformation (self st)) f raw = Ok s.
Proof.
  intros Hl. unfold raw_series.
  destruct (_load_series st) as [[data|e] st1] eqn:Hload.
  2:{ rewrite (_load_series_raises f _ _ _ Hload) in Hl. discriminate. }
  destruct (heap st1 !! data) as [raw|] eqn:Hraw.
  2:{ unfold load_series, bind, deref in Hl. rewrite Hload, Hraw in Hl.
      discriminate. }
  destruct (index raw) as [idx0|type_name size] eqn:Hidx.
  2:{ erewrite load_series_no_time_index in Hl by eauto. discriminate. }
  destruct (load_series_run f _ _ _ _ _ Hload Hraw Hidx) as (extra & _ & Hout & Hsome).
  rewrite Hl in Hout, Hsome. cbn [fst snd] in *.
  destruct (Hsome l eq_refl) as [s Hs].
  unfold output in Hout. cbn [fst] in Hout. rewrite Hs in Hout.
  exists raw, idx0, s. auto.
Qed.

End LoadedShape.

(** ** Concrete inputs *)

Definition hour_ns : Z := 3600000000000.
Definition hour_us : Z := 3600000000.

(** 2019-01-22 15:00 UTC *)
Definition data_start : Z := 1548169200000000000.

Definition hourly : Tick := {| unit := Hour; n := 1 |}.

(** Three hourly observations, with or without a zone. *)
Definition three_hours (z : option tzinfo) (vals : list F64.t) : Series :=
  {| index := DatetimeIdx {| stamps := [data_start; data_start + hour_ns;
                                         data_start + 2 * hour_ns];
                             tz := z;
                             freq := Some hourly |};
     values := vals |}.

Definition object_specs (original_tz_ transformation_ config : pyobj) : SeriesSpecs :=
  {| name := OStr "my_outcome";
     original_tz := original_tz_;
     transformation := transformation_;
     resampling_config := config;
     class := ObjectSeriesSpecs_ 0%nat |}.

(** An object spec over one stored series. *)
Definition object_state (s : SeriesSpecs) (data : Series) : PyState :=
  {| self := s; heap := [data] |}.

Definition plain_state (data : Series) : PyState :=
  object_state (object_specs ONone ONone ONone) data.

Definition finite_values : list F64.t := [F64.of_Z 1; F64.of_Z 2; F64.of_Z 3].
Definition infinite_values : list F64.t := [F64.of_Z 1; F64.inf; F64.of_Z 3].

(** Three observations going back in time, one hour apart. *)
Definition backwards : Series :=
  {| index := DatetimeIdx {| stamps := [data_start; data_start - hour_ns;
                                         data_start - 2 * hour_ns];
                             tz := Some pytz_utc;
                             freq := Some {| unit := Hour; n := -1 |} |};
     values := finite_values |}.

(** ** C1: the shape of a loaded series *)

(** The invariant as the specification words it. *)
Definition load_invariant_as_stated `{Runtime} (expected_frequency : Z)
    (st : PyState) : Prop :=
  forall l st' s,
    load_series expected_frequency st = (Ok l, st') ->
    heap st' !! l = Some s ->
    canonical expected_frequency s /\ forallb F64.isfinite (values s) = true.

Lemma example_reductions_only : @reductions_only example_runtime.
Proof.
  intros agg_name agg_method r s Hin Hs.
  cbn [getmembers example_runtime] in Hin. unfold example_members in Hin.
  repeat (apply elem_of_cons in Hin as [[= -> ->]|Hin];
          [unfold Resampler_mean in Hs; injection Hs as <-; eexists; reflexivity|]).
  inversion Hin.
Qed.




(** ** More on the raw series *)

Section RawSeries.
Context `{Runtime}.

Lemma raw_series_inv st raw :
  raw_series st = Some raw ->
  exists data st1, _load_series st = (Ok data, st1) /\ heap st1 !! data = Some raw.
Proof.
  unfold raw_series. destruct (_load_series st) as [[data|e] st1]; [|discriminate].
  eauto.
Qed.

Lemma _load_series_reconfigured st config transformation_ r st1 :
  _load_series st = (r, st1) ->
  _load_series (reconfigured st config transformation_) =
    (r, reconfigured st1 config transformation_).
Proof.
  unfold _load_series, bind, get_self, alloc, ret, lift, raise, reconfigured.
  cbn [self class heap].
  destruct (class (self st)) as [|data| |file_path column|db_engine query] eqn:Hc.
  - intros [= <- <-]. cbn. rewrite Hc. reflexivity.
  - intros [= <- <-]. cbn. rewrite Hc. reflexivity.
  - intros [= <- <-]. cbn. rewrite Hc. reflexivity.
  - destruct (DFFile_load_series file_path column); intros [= <- <-];
      cbn; rewrite Hc; reflexivity.
  - destruct query; try (intros [= <- <-]; cbn; rewrite Hc; reflexivity).
    destruct (DB_load_series q); intros [= <- <-]; cbn; rewrite Hc; reflexivity.
Qed.

Lemma raw_series_reconfigured st config transformation_ :
  raw_series (reconfigured st config transformation_) = raw_series st.
Proof.
  unfold raw_series.
  destruct (_load_series st) as [r st1] eqn:E.
  rewrite (_load_series_reconfigured _ config transformation_ _ _ E).
  destruct r; reflexivity.
Qed.

(** With a time index, what [load_series] returns or raises is what
    [loaded] says. *)
Lemma load_series_loaded f st raw idx0 :
  raw_series st = Some raw ->
  index raw = DatetimeIdx idx0 ->
  match loaded (resampling_config (self st)) (transformation (self st)) f raw with
  | Ok s =>
      exists l, fst (load_series f st) = Ok l /\
                heap (snd (load_series f st)) !! l = Some s
  | Raise e => fst (load_series f st) = Raise e
  end.
Proof.
  intros Hraw Hidx.
  destruct (raw_series_inv _ _ Hraw) as (data & st1 & Hload & Hlook).
  destruct (load_series_run f _ _ _ _ _ Hload Hlook Hidx) as (extra & _ & Hout & Hsome).
  rewrite <- Hout. unfold output.
  destruct (fst (load_series f st)) as [l|e] eqn:Hfst; [|reflexivity].
  destruct (Hsome l eq_refl) as [s Hs]. rewrite Hs. eauto.
Qed.

Lemma loaded_rejects config transformation_ f raw idx0 :
  index raw = DatetimeIdx idx0 ->
  stamps idx0 = [] \/ existsb F64.isnan (values raw) = true ->
  loaded config transformation_ f raw =
    Raise (ValueError (match stamps idx0 with
                       | [] => no_values_msg
                       | _ => nan_values_msg
                       end)).
Proof.
  intros Hidx Hbad. unfold loaded. rewrite Hidx.
  assert (Hs : stamps (localized idx0) = [] <-> stamps idx0 = []).
  { rewrite <- !length_zero_iff_nil, localized_length. reflexivity. }
  destruct (stamps (localized idx0)) eqn:E1; destruct (stamps idx0) eqn:E2;
    try reflexivity.
  - destruct Hs as [Hs _]. discriminate (Hs eq_refl).
  - destruct Hs as [_ Hs]. discriminate (Hs eq_refl).
  - destruct Hbad as [? | ->]; [discriminate|reflexivity].
Qed.

End RawSeries.

(** ** C3: the data-quality check *)

(** A spec of the base class, which has no data. *)
Definition base_state (original_tz_ : pyobj) : PyState :=
  {| self := {| name := OStr "placeholder";
                original_tz := original_tz_;
                transformation := ONone;
                resampling_config := ONone;
                class := SeriesSpecs_ |};
     heap := [] |}.

Definition nan_values : list F64.t := [F64.of_Z 1; F64.nan; F64.of_Z 3].

(** The check as the specification words it: an empty raw series, or one
    with a value that is not finite, makes the load raise [ValueError]. *)
Definition data_quality_as_stated `{Runtime} (expected_frequency : Z)
    (st : PyState) : Prop :=
  forall raw,
    raw_series st = Some raw ->
    values raw = [] \/ forallb F64.isfinite (values raw) = false ->
    exists msg st',
      load_series expected_frequency st = (Raise (ValueError msg), st').

(** C3, counterexample: a series that holds an infinity is loaded without
    an error, and the spec of the base class, whose raw series is empty,
    raises [IncompatibleModelSpecs] for its index before emptiness is looked
    at. *)
Lemma load_series_data_quality_not_raised :
  ~ @data_quality_as_stated example_runtime hour_us
      (plain_state (three_hours (Some pytz_utc) infinite_values)) /\
  ~ @data_quality_as_stated example_runtime hour_us (base_state ONone).
Proof.
  split; intros Hc.
  - destruct (Hc _ ltac:(vm_compute; reflexivity) ltac:(right; vm_compute; reflexivity))
      as (msg & st' & E).
    vm_compute in E. discriminate.
  - destruct (Hc _ ltac:(vm_compute; reflexivity) ltac:(left; reflexivity))
      as (msg & st' & E).
    vm_compute in E. discriminate.
Qed.

(** C3, as amended: when the raw series has a time index and is empty or
    holds a NaN, the load raises [ValueError]; it does so whatever the
    expected frequency, the resampling configuration and the transformation
    are, since neither resampling nor transformation has been reached. *)
Theorem load_series_rejects_empty_or_nan `{Runtime} st raw idx0 :
  raw_series st = Some raw ->
  index raw = DatetimeIdx idx0 ->
  stamps idx0 = [] \/ existsb F64.isnan (values raw) = true ->
  exists msg,
    (msg = no_values_msg \/ msg = nan_values_msg) /\
    forall expected_frequency config transformation_,
      fst (load_series expected_frequency (reconfigured st config transformation_)) =
        Raise (ValueError msg).
Proof.
  intros Hraw Hidx Hbad.
  exists (match stamps idx0 with [] => no_values_msg | _ => nan_values_msg end).
  split; [destruct (stamps idx0); auto|].
  intros f config tr.
  pose proof (load_series_loaded f (reconfigured st config tr) raw idx0) as Hl.
  rewrite raw_series_reconfigured in Hl. specialize (Hl Hraw Hidx).
  rewrite (loaded_rejects _ _ _ _ _ Hidx Hbad) in Hl. exact Hl.
Qed.

Lemma load_series_rejects_empty_or_nan_witness :
  exists msg,
    (msg = no_values_msg \/ msg = nan_values_msg) /\
    forall expected_frequency config transformation_,
      fst (@load_series example_runtime expected_frequency
             (reconfigured (plain_state (three_hours None nan_values))
                config transformation_)) =
        Raise (ValueError msg).
Proof.
  apply (@load_series_rejects_empty_or_nan example_runtime
           (plain_state (three_hours None nan_values))
           (three_hours None nan_values)
           {| stamps := [data_start; data_start + hour_ns; data_start + 2 * hour_ns];
              tz := None; freq := Some hourly |}).
  - reflexivity.
  - reflexivity.
  - right. reflexivity.
Defined.

(** ** C4: naming an aggregation *)

(** The raw series passes the checks of [load_series] and its frequency
    does not read like the expected one: the load goes on to resample. *)
Definition must_resample (expected_frequency : Z) (raw : Series) : Prop :=
  match index raw with
  | DatetimeIdx idx =>
      stamps idx <> [] /\ existsb F64.isnan (values raw) = false /\
      is_Some (freq idx) /\ freq_matches expected_frequency idx = false
  | OtherIdx _ _ => False
  end.

(** The keywords of the configuration, other than the aggregation, are
    accepted by [resample]. *)
Definition resample_accepts (expected_frequency : Z) (raw : Series)
    (config : gmap string pyval) : Prop :=
  match index raw with
  | DatetimeIdx idx =>
      is_ok (Series_resample (localized idx) (values raw)
               (timedelta_to_pandas_freq_str expected_frequency)
               (delete "aggregation" config)) = true
  | OtherIdx _ _ => False
  end.

(** The rule as the specification words it: a load whose configuration
    names an aggregation that cannot be resolved raises
    [IncompatibleModelSpecs]. *)
Definition aggregation_check_as_stated `{Runtime} (expected_frequency : Z)
    (st : PyState) : Prop :=
  forall config agg,
    resampling_config (self st) = ODict config ->
    config !! "aggregation" = Some agg ->
    find_member agg getmembers = None ->
    exists msg st',
      load_series expected_frequency st = (Raise (IncompatibleModelSpecs msg), st').

Definition unknown_aggregation : gmap string pyval :=
  {[ "aggregation" := PyStr "no_such_aggregation" ]}.

(** C4, counterexample: a spec that names an aggregation which the
    resampler does not have is constructed without complaint, and loading
    it at the frequency of its data returns the data. *)
Lemma unknown_aggregation_accepted :
  ObjectSeriesSpecs_init [three_hours (Some pytz_utc) finite_values] (OSeries 0%nat)
    (OStr "my_outcome") ONone ONone (ODict unknown_aggregation)
    = Ok (object_specs ONone ONone (ODict unknown_aggregation)) /\
  ~ @aggregation_check_as_stated example_runtime hour_us
      (object_state (object_specs ONone ONone (ODict unknown_aggregation))
         (three_hours (Some pytz_utc) finite_values)).
Proof.
  split; [reflexivity|]. intros Hc.
  destruct (Hc unknown_aggregation (PyStr "no_such_aggregation")
              eq_refl ltac:(vm_compute; reflexivity) ltac:(vm_compute; reflexivity))
    as (msg & st' & E).
  vm_compute in E. discriminate.
Qed.

(** C4, as amended: the name of the aggregation is looked up among the
    methods of the resampler when a load resamples. A load that has to
    resample, and whose configuration names an aggregation that is not
    among these methods, raises [IncompatibleModelSpecs]. *)
Theorem load_series_unknown_aggregation `{Runtime} expected_frequency st raw config agg :
  raw_series st = Some raw ->
  must_resample expected_frequency raw ->
  resampling_config (self st) = ODict config ->
  config !! "aggregation" = Some agg ->
  find_member agg getmembers = None ->
  resample_accepts expected_frequency raw config ->
  exists msg,
    fst (load_series expected_frequency st) = Raise (IncompatibleModelSpecs msg).
Proof.
  intros Hraw Hmust Hconfig Hagg Hfind Hacc.
  unfold must_resample, resample_accepts in *.
  destruct (index raw) as [idx0|] eqn:Hidx; [|contradiction].
  destruct Hmust as (Hne & Hnan & [f0 Hf0] & Hmatch).
  pose proof (load_series_loaded expected_frequency st raw idx0 Hraw Hidx) as Hl.
  unfold loaded in Hl. rewrite Hidx, Hnan, localized_freq, Hf0 in Hl.
  assert (Hs : stamps (localized idx0) <> []).
  { rewrite <- length_zero_iff_nil, localized_length, length_zero_iff_nil. exact Hne. }
  destruct (stamps (localized idx0)); [congruence|].
  unfold freq_matches in Hmatch. rewrite Hf0 in Hmatch. rewrite Hmatch in Hl.
  unfold resample_with in Hl. rewrite Hconfig in Hl.
  destruct (Series_resample _ _ _ _) as [r|]; [|discriminate].
  rewrite Hagg, Hfind in Hl. eauto.
Qed.

Lemma load_series_unknown_aggregation_witness :
  exists msg,
    fst (@load_series example_runtime (hour_us / 2)
           (object_state (object_specs ONone ONone (ODict unknown_aggregation))
              (three_hours (Some pytz_utc) finite_values)))
      = Raise (IncompatibleModelSpecs msg).
Proof.
  apply (@load_series_unknown_aggregation example_runtime (hour_us / 2)
           (object_state (object_specs ONone ONone (ODict unknown_aggregation))
              (three_hours (Some pytz_utc) finite_values))
           (three_hours (Some pytz_utc) finite_values)
           unknown_aggregation (PyStr "no_such_aggregation")).
  - reflexivity.
  - vm_compute. repeat split; try discriminate. eauto.
  - reflexivity.
  - vm_compute. reflexivity.
  - vm_compute. reflexivity.
  - vm_compute. reflexivity.
Defined.

(** ** C10: what a load does to the spec and to its data *)

(** The zone of the data: that of its index, UTC for a naive one. *)
Definition data_tz (raw : Series) : tzinfo :=
  match index raw with
  | DatetimeIdx idx => default pytz_utc (tz idx)
  | OtherIdx _ _ => pytz_utc
  end.

Definition etc_gmt_minus_1 : tzinfo :=
  {| zone := "Etc/GMT-1"; utcoffset := hour_ns |}.

(** The effect as it is worded: after every call, [original_tz] is the zone
    of the loaded data. *)
Definition original_tz_reassigned_as_stated `{Runtime} (expected_frequency : Z)
    (st : PyState) : Prop :=
  forall raw,
    raw_series st = Some raw ->
    original_tz (self (snd (load_series expected_frequency st))) = OTz (data_tz raw).

(** C10, counterexample: a spec of the base class constructed with a zone
    keeps it through a load, which raises for the index before the zone
    is looked at. *)
Lemma original_tz_kept_without_time_index :
  ~ @original_tz_reassigned_as_stated example_runtime hour_us
      (base_state (OTz etc_gmt_minus_1)).
Proof.
  intros Hc. specialize (Hc _ ltac:(vm_compute; reflexivity)).
  vm_compute in Hc. discriminate.
Qed.

(** C10, as amended: every call to [load_series] whose raw series has a
    time index assigns to [original_tz] the zone of that index, UTC when
    it is naive, whatever the field held before and also when the call
    raises afterwards. When the spec is an object spec and the index of
    its stored series is naive, the stored series itself carries the
    localised index after the call. *)
Theorem load_series_reassigns_original_tz `{Runtime} expected_frequency st raw idx0 :
  raw_series st = Some raw ->
  index raw = DatetimeIdx idx0 ->
  original_tz (self (snd (load_series expected_frequency st))) =
    OTz (default pytz_utc (tz idx0)) /\
  forall data,
    class (self st) = ObjectSeriesSpecs_ data ->
    tz idx0 = None ->
    heap st !! data = Some raw /\
    heap (snd (load_series expected_frequency st)) !! data =
      Some {| index := DatetimeIdx (tz_localize idx0 (Some pytz_utc));
              values := values raw |}.
Proof.
  intros Hraw Hidx.
  destruct (raw_series_inv _ _ Hraw) as (data & st1 & Hload & Hlook).
  destruct (load_series_run expected_frequency _ _ _ _ _ Hload Hlook Hidx)
    as (extra & Hsnd & _ & _).
  rewrite Hsnd. cbn [self heap original_tz with_original_tz].
  split; [reflexivity|].
  intros l Hclass Htz.
  rewrite (_load_series_object _ _ Hclass) in Hload. injection Hload as <- <-.
  split; [exact Hlook|].
  rewrite lookup_app_l by (rewrite length_insert; eapply lookup_lt_Some; eauto).
  rewrite list_lookup_insert_eq by (eapply lookup_lt_Some; eauto).
  unfold relocalized, localized. rewrite Htz. reflexivity.
Qed.

Lemma load_series_reassigns_original_tz_witness :
  original_tz (self (snd (@load_series example_runtime hour_us
      (object_state (object_specs (OTz etc_gmt_minus_1) ONone ONone)
         (three_hours None finite_values))))) = OTz pytz_utc /\
  forall data,
    ObjectSeriesSpecs_ 0%nat = ObjectSeriesSpecs_ data ->
    @None tzinfo = None ->
    [three_hours None finite_values] !! data = Some (three_hours None finite_values) /\
    heap (snd (@load_series example_runtime hour_us
      (object_state (object_specs (OTz etc_gmt_minus_1) ONone ONone)
         (three_hours None finite_values)))) !! data =
      Some (three_hours (Some pytz_utc) finite_values).
Proof.
  apply (@load_series_reassigns_original_tz example_runtime hour_us
           (object_state (object_specs (OTz etc_gmt_minus_1) ONone ONone)
              (three_hours None finite_values))
           (three_hours None finite_values)
           {| stamps := [data_start; data_start + hour_ns; data_start + 2 * hour_ns];
              tz := None; freq := Some hourly |}).
  - reflexivity.
  - reflexivity.
Defined.

(** ** C9: loading twice *)

Section Idempotence.
Context `{Runtime}.

Lemma localized_idem idx : localized (localized idx) = localized idx.
Proof.
  unfold localized at 1. destruct (localized_aware idx) as [z ->]. reflexivity.
Qed.

Lemma loaded_relocalized config transformation_ f raw idx0 :
  index raw = DatetimeIdx idx0 ->
  loaded config transformation_ f (relocalized raw idx0) =
    loaded config transformation_ f raw.
Proof.
  intros Hidx. unfold loaded, relocalized. cbn [index values].
  rewrite Hidx, localized_idem. reflexivity.
Qed.

(** Loading an object spec twice: the second call returns what the first
    one returned, and leaves the series that the first one returned as it
    was. *)
Lemma load_series_twice f st data raw idx0 :
  class (self st) = ObjectSeriesSpecs_ data ->
  heap st !! data = Some raw ->
  index raw = DatetimeIdx idx0 ->
  let first := load_series f st in
  let second := load_series f (snd first) in
  output second (heap (snd second)) = output first (heap (snd first)) /\
  output first (heap (snd second)) = output first (heap (snd first)).
Proof.
  intros Hclass Hraw Hidx first second.
  pose proof (_load_series_object _ _ Hclass) as Hload.
  destruct (load_series_run f _ _ _ _ _ Hload Hraw Hidx)
    as (extra & Hsnd & Hout & Hsome).
  fold first in Hsnd, Hout, Hsome.
  assert (Hlt : (data < length (heap st))%nat) by (eapply lookup_lt_Some; eauto).
  assert (Hclass' : class (self (snd first)) = ObjectSeriesSpecs_ data).
  { rewrite Hsnd. exact Hclass. }
  assert (Hraw' : heap (snd first) !! data = Some (relocalized raw idx0)).
  { rewrite Hsnd. cbn [heap].
    rewrite lookup_app_l by (rewrite length_insert; exact Hlt).
    apply list_lookup_insert_eq. exact Hlt. }
  pose proof (_load_series_object _ _ Hclass') as Hload'.
  destruct (load_series_run f _ _ _ _ _ Hload' Hraw' eq_refl)
    as (extra' & Hsnd' & Hout' & Hsome').
  fold second in Hsnd', Hout', Hsome'.
  split.
  - rewrite Hout', Hout. rewrite Hsnd at 1 2. cbn [self with_original_tz].
    apply loaded_relocalized. exact Hidx.
  - unfold output. destruct (fst first) as [l|e] eqn:Hfst; [|reflexivity].
    destruct (Hsome l eq_refl) as [s Hs]. rewrite Hs.
    rewrite Hsnd'. cbn [heap].
    assert (Hid : <[data := relocalized (relocalized raw idx0) (localized idx0)]>
                    (heap (snd first)) = heap (snd first)).
    { apply list_insert_id. etrans; [exact Hraw'|]. f_equal.
      unfold relocalized. cbn [values]. rewrite localized_idem. reflexivity. }
    rewrite Hid. rewrite (lookup_app_l_Some _ _ _ _ Hs). reflexivity.
Qed.

(** An object spec over a series with a timezone-aware index keeps its
    class and its stored series through a load. *)
Lemma load_series_keeps_aware_data f st data raw idx0 z :
  class (self st) = ObjectSeriesSpecs_ data ->
  heap st !! data = Some raw ->
  index raw = DatetimeIdx idx0 ->
  tz idx0 = Some z ->
  class (self (snd (load_series f st))) = ObjectSeriesSpecs_ data /\
  heap (snd (load_series f st)) !! data = Some raw.
Proof.
  intros Hclass Hraw Hidx Htz.
  pose proof (_load_series_object _ _ Hclass) as Hload.
  destruct (load_series_run f _ _ _ _ _ Hload Hraw Hidx) as (extra & Hsnd & _ & _).
  rewrite Hsnd. cbn [self heap class with_original_tz]. split; [exact Hclass|].
  assert (Hlt : (data < length (heap st))%nat) by (eapply lookup_lt_Some; eauto).
  rewrite lookup_app_l by (rewrite length_insert; exact Hlt).
  rewrite list_lookup_insert_eq by exact Hlt. f_equal.
  unfold relocalized, localized. rewrite Htz.
  destruct raw; simpl in *; congruence.
Qed.

End Idempotence.

(** C9: for an object spec whose stored series has a timezone-aware index
    with a frequency, and any expected frequency, a second call of
    [load_series] returns what the first call returned, value for value
    and stamp for stamp, or raises the same error; the series that the
    first call returned is not touched by the second, and the stored
    series is the same before and after the two calls. *)
Theorem load_series_idempotent `{Runtime} expected_frequency st data raw idx0 z f0 :
  class (self st) = ObjectSeriesSpecs_ data ->
  heap st !! data = Some raw ->
  index raw = DatetimeIdx idx0 ->
  tz idx0 = Some z ->
  freq idx0 = Some f0 ->
  let first := load_series expected_frequency st in
  let second := load_series expected_frequency (snd first) in
  output second (heap (snd second)) = output first (heap (snd first)) /\
  output first (heap (snd second)) = output first (heap (snd first)) /\
  heap (snd second) !! data = Some raw.
Proof.
  intros Hclass Hraw Hidx Htz _ first second.
  destruct (load_series_twice expected_frequency st data raw idx0 Hclass Hraw Hidx)
    as [Hsame Hkept].
  split; [exact Hsame|]. split; [exact Hkept|].
  destruct (load_series_keeps_aware_data expected_frequency st data raw idx0 z
              Hclass Hraw Hidx Htz) as [Hclass' Hraw'].
  apply (load_series_keeps_aware_data expected_frequency _ data raw idx0 z
           Hclass' Hraw' Hidx Htz).
Qed.

Lemma load_series_idempotent_witness :
  let st := plain_state (three_hours (Some pytz_utc) finite_values) in
  let first := @load_series example_runtime (hour_us / 2) st in
  let second := @load_series example_runtime (hour_us / 2) (snd first) in
  output second (heap (snd second)) = output first (heap (snd first)) /\
  output first (heap (snd second)) = output first (heap (snd first)) /\
  heap (snd second) !! 0%nat = Some (three_hours (Some pytz_utc) finite_values).
Proof.
  apply (@load_series_idempotent example_runtime (hour_us / 2)
           (plain_state (three_hours (Some pytz_utc) finite_values)) 0%nat
           (three_hours (Some pytz_utc) finite_values)
           {| stamps := [data_start; data_start + hour_ns; data_start + 2 * hour_ns];
              tz := Some pytz_utc; freq := Some hourly |}
           pytz_utc hourly); reflexivity.
Defined.

(** ** C8: the most recent observation per timestamp *)

Section MostRecent.
Context `{Runtime}.

Lemma drop_duplicates_from_elem seen rows r :
  r ∈ drop_duplicates_from seen rows -> r ∈ rows /\ Row_datetime r ∉ seen.
Proof.
  revert seen. induction rows as [|a rows IH]; intros seen; simpl.
  - intros Hr. inversion Hr.
  - case_bool_decide as Hseen.
    + intros Hr. apply IH in Hr as [Hr Hn]. split; [by right|exact Hn].
    + intros Hr. apply elem_of_cons in Hr as [->|Hr].
      * split; [by left|exact Hseen].
      * apply IH in Hr as [Hr Hn]. split; [by right|].
        intros Hin. apply Hn. by right.
Qed.

Lemma drop_duplicates_from_NoDup seen rows :
  NoDup (Row_datetime <$> drop_duplicates_from seen rows).
Proof.
  revert seen. induction rows as [|a rows IH]; intros seen; simpl.
  - constructor.
  - case_bool_decide as Hseen; [apply IH|].
    csimpl. constructor; [|apply IH].
    intros Hin. apply list_elem_of_fmap in Hin as (r & Hr & Hin).
    apply drop_duplicates_from_elem in Hin as [_ Hn].
    apply Hn. rewrite <- Hr. by left.
Qed.

Lemma drop_duplicates_from_covers seen rows r :
  r ∈ rows -> Row_datetime r ∉ seen ->
  Row_datetime r ∈ Row_datetime <$> drop_duplicates_from seen rows.
Proof.
  revert seen. induction rows as [|a rows IH]; intros seen Hr Hn; simpl.
  - inversion Hr.
  - apply elem_of_cons in Hr as [->|Hr].
    + case_bool_decide as Hseen; [contradiction|]. csimpl. by left.
    + case_bool_decide as Hseen; [by apply IH|].
      csimpl. destruct (decide (Row_datetime r = Row_datetime a)) as [->|Hne].
      * by left.
      * right. apply IH; [exact Hr|].
        intros Hin. apply elem_of_cons in Hin as [?|?]; contradiction.
Qed.

(** The row that is kept for a timestamp comes before every other row of
    that timestamp. *)
Lemma drop_duplicates_from_first seen rows r r' :
  StronglySorted (fun a b => Row_horizon a <= Row_horizon b) rows ->
  r ∈ drop_duplicates_from seen rows ->
  r' ∈ rows ->
  Row_datetime r' = Row_datetime r ->
  Row_horizon r <= Row_horizon r'.
Proof.
  revert seen. induction rows as [|a rows IH]; intros seen Hsorted; simpl.
  - intros Hr. inversion Hr.
  - apply StronglySorted_inv in Hsorted as [Hsorted Hall].
    rewrite Forall_forall in Hall.
    case_bool_decide as Hseen.
    + intros Hr Hr' Hsame. apply elem_of_cons in Hr' as [->|Hr'].
      * apply drop_duplicates_from_elem in Hr as [_ Hn]. congruence.
      * eapply IH; eauto.
    + intros Hr Hr' Hsame. apply elem_of_cons in Hr as [->|Hr].
      * apply elem_of_cons in Hr' as [->|Hr']; [lia|].
        apply Hall. exact Hr'.
      * apply elem_of_cons in Hr' as [->|Hr'].
        -- apply drop_duplicates_from_elem in Hr as [_ Hn].
           exfalso. apply Hn. rewrite Hsame. by left.
        -- eapply IH; eauto.
Qed.

Lemma sorted_NoDup_strict (l : list Z) :
  StronglySorted Z.le l -> NoDup l -> StronglySorted Z.lt l.
Proof.
  induction 1 as [|t l Hs IH Hall]; intros Hnd.
  - constructor.
  - apply NoDup_cons in Hnd as [Hnin Hnd]. constructor; [by apply IH|].
    rewrite Forall_forall in *. intros u Hu.
    specialize (Hall u Hu).
    assert (u <> t) by (intros ->; contradiction). lia.
Qed.

Lemma not_null_fields rows r :
  existsb Row_isnull rows = false -> r ∈ rows ->
  datetime r = Some (Row_datetime r) /\ horizon r = Some (Row_horizon r).
Proof.
  intros Hnull Hr.
  assert (Row_isnull r = false) as Hn.
  { destruct (Row_isnull r) eqn:E; [|reflexivity].
    rewrite <- Hnull. symmetry. apply existsb_exists.
    exists r. split; [by apply list_elem_of_In|exact E]. }
  unfold Row_isnull, Row_datetime, Row_horizon, isnone in *.
  destruct (datetime r), (horizon r); try discriminate; auto.
  destruct (F64.isnan (value r)); discriminate.
Qed.

End MostRecent.


(** Two revisions of the first hour, the later one made one hour ahead, and
    one observation of the second hour. *)
Definition revised_rows : list Row :=
  [ {| datetime := Some (data_start + hour_ns); value := F64.of_Z 3;
       horizon := Some hour_ns |};
    {| datetime := Some data_start; value := F64.of_Z 1;
       horizon := Some (2 * hour_ns) |};
    {| datetime := Some data_start; value := F64.of_Z 2;
       horizon := Some hour_ns |} ].

Definition revised_query : Query :=
  {| tablename := "power"; rendered := "SELECT ..."; all := revised_rows |}.

Definition most_recent_series : Series :=
  {| index := DatetimeIdx {| stamps := [data_start; data_start + hour_ns];
                             tz := Some pytz_utc;
                             freq := None |};
     values := [F64.of_Z 2; F64.of_Z 3] |}.


(** The series of a query-backed spec carries no frequency, so that
    [load_series] on such a spec never returns. *)
Lemma DB_load_series_never_returns `{Runtime} f st db_engine query :
  class (self st) = DBSeriesSpecs_ db_engine query ->
  is_ok (fst (load_series f st)) = false.
Proof.
  intros Hclass.
  destruct (load_series f st) as [[l|e] st'] eqn:Hl; [|reflexivity].
  exfalso.
  destruct (load_series_returns _ _ _ _ Hl) as (raw & idx0 & s & Hraw & Hidx & _ & Hloaded).
  unfold raw_series, _load_series, bind, get_self, lift, alloc, raise in Hraw.
  cbn [self] in Hraw. rewrite Hclass in Hraw.
  destruct query; try discriminate.
  unfold DB_load_series in Hraw.
  destruct (all q); [discriminate|].
  destruct (existsb Row_isnull _); [discriminate|].
  cbn [heap] in Hraw. rewrite lookup_snoc in Hraw. injection Hraw as <-.
  injection Hidx as <-.
  unfold loaded in Hloaded. cbn [index values] in Hloaded.
  rewrite localized_freq in Hloaded. cbn [freq] in Hloaded.
  destruct (stamps _); [discriminate|].
  destruct (existsb F64.isnan _); discriminate.
Qed.

(** ** C6: decoding an unknown discriminator *)

(** The rule as the specification words it, with the [KeyError] of the
    lookup in the module namespace standing for the unknown-type error:
    a discriminator that is not a series spec kind makes decoding raise
    it. *)
Definition unknown_type_as_stated `{Runtime} (json_repr : gmap string pyobj)
    (h : list Series) : Prop :=
  forall series_type,
    json_repr !! "__series_type__" = Some (OStr series_type) ->
    series_type ∉ series_kinds ->
    exists key, fst (load_series_specs_from_json json_repr h) = Raise (KeyError key).

Definition tagged (series_type : string) (fields : list (string * pyobj))
    : gmap string pyobj :=
  <["__series_type__" := OStr series_type]> (list_to_map fields).

(** C6, counterexample: the discriminator is looked up among all the names
    of the module. The name of a constant is found and the constant is
    called, which raises [TypeError]; the name of another callable is found
    and the callable is called, and what it returns is returned. *)
Lemma decode_resolves_any_global :
  ~ @unknown_type_as_stated example_runtime
      (tagged "DEFAULT_REMODELING_FREQUENCY" [("name", OStr "y")]) [] /\
  ~ @unknown_type_as_stated example_runtime
      (tagged "timedelta" [("days", OInt 1)]) [] /\
  fst (@load_series_specs_from_json example_runtime
         (tagged "timedelta" [("days", OInt 1)]) [])
    = Ok (DObject (OForeign "datetime.timedelta(days=1)")).
Proof.
  split; [|split].
  - intros Hc.
    destruct (Hc "DEFAULT_REMODELING_FREQUENCY" ltac:(vm_compute; reflexivity))
      as [key E].
    + unfold series_kinds. intros Hin.
      repeat (apply elem_of_cons in Hin as [Hin|Hin]; [discriminate|]).
      inversion Hin.
    + vm_compute in E. discriminate.
  - intros Hc.
    destruct (Hc "timedelta" ltac:(vm_compute; reflexivity)) as [key E].
    + unfold series_kinds. intros Hin.
      repeat (apply elem_of_cons in Hin as [Hin|Hin]; [discriminate|]).
      inversion Hin.
    + vm_compute in E. discriminate.
  - vm_compute. reflexivity.
Qed.

(** C6, as amended: decoding a representation whose discriminator is not a
    name of the module namespace raises the [KeyError] of the lookup, for
    every such discriminator; nothing has been constructed by then. *)
Theorem decode_unknown_name `{Runtime} json_repr series_type h :
  json_repr !! "__series_type__" = Some (OStr series_type) ->
  module_globals !! series_type = None ->
  load_series_specs_from_json json_repr h = (Raise (KeyError series_type), h).
Proof.
  intros Hty Hglobal. unfold load_series_specs_from_json.
  rewrite Hty, Hglobal. reflexivity.
Qed.

Lemma decode_unknown_name_witness :
  @load_series_specs_from_json example_runtime
    (tagged "SpreadsheetSeriesSpecs" [("name", OStr "y")]) []
  = (Raise (KeyError "SpreadsheetSeriesSpecs"), []).
Proof.
  apply (@decode_unknown_name example_runtime
           (tagged "SpreadsheetSeriesSpecs" [("name", OStr "y")])
           "SpreadsheetSeriesSpecs" []).
  - vm_compute. reflexivity.
  - vm_compute. reflexivity.
Defined.

(** ** C5: encoding and decoding a spec *)

(** The zone that an [original_tz] attribute names. *)
Definition tz_name (o : pyobj) : option string :=
  match o with
  | OTz z => Some (zone z)
  | OStr s => Some s
  | _ => None
  end.

(** The parameters of a [transformation] attribute. *)
Definition transformation_params (o : pyobj) : option (gmap string pyval) :=
  match o with
  | OTransformation t => Some (params t)
  | ODict d => Some d
  | _ => None
  end.

(** What a series holds: its stamps, its values and the name of its zone. *)
Definition series_content (s : Series) : option (list Z * list F64.t * option string) :=
  match index s with
  | DatetimeIdx idx => Some (stamps idx, values s, zone <$> tz idx)
  | OtherIdx _ _ => None
  end.

(** Two specs are equivalent when they are of the same class, with the
    same name, the same zone, the same transformation parameters, the same
    resampling configuration and the same source: for object specs, series
    with the same content. *)
Definition equivalent (h : list Series) (s : SeriesSpecs)
    (h' : list Series) (s' : SeriesSpecs) : Prop :=
  name s = name s' /\
  tz_name (original_tz s) = tz_name (original_tz s') /\
  transformation_params (transformation s) = transformation_params (transformation s') /\
  resampling_config s = resampling_config s' /\
  match class s, class s' with
  | ObjectSeriesSpecs_ l, ObjectSeriesSpecs_ l' =>
      (h !! l) ≫= series_content = (h' !! l') ≫= series_content
  | c, c' => c = c'
  end.

(** The round trip as the specification words it. *)
Definition roundtrip_as_stated `{Runtime} (h : list Series) (s : SeriesSpecs) : Prop :=
  forall json_repr,
    encode h s = Ok json_repr ->
    exists s' h',
      load_series_specs_from_json json_repr h = (Ok (DSpecs s'), h') /\
      equivalent h s h' s'.

(** Decoding the data of an object spec: each stamp that was written in
    UTC is read as a wall-clock time of the original zone, which moves it
    by the offset of that zone. *)
Lemma decode_data_localizes `{Runtime} json_repr h epochs vals zone_name off :
  json_repr !! "data" = Some (OSeriesJson epochs vals) ->
  json_repr !! "original_tz" = Some (OStr zone_name) ->
  timezones !! zone_name = Some off ->
  decode_data json_repr h =
    (Ok (<["data" := OSeries (length h)]> json_repr),
     (h ++ [{| index := DatetimeIdx {| stamps := map (fun t => t - off) epochs;
                                       tz := Some {| zone := zone_name;
                                                     utcoffset := off |};
                                       freq := None |};
               values := vals |}])%list).
Proof.
  intros Hdata Htz Hzone. unfold decode_data. rewrite Hdata. cbn [read_json index].
  rewrite lookup_insert_ne by discriminate. rewrite Htz.
  cbn [Index_tz_localize]. rewrite Hzone. cbn [tz_localize stamps freq values].
  f_equal. rewrite insert_app_r_alt by lia. rewrite Nat.sub_diag. reflexivity.
Qed.

Definition zoned_series : Series := three_hours (Some etc_gmt_minus_1) finite_values.
Definition zoned_specs : SeriesSpecs := object_specs (OTz etc_gmt_minus_1) ONone ONone.

(** C5, at the failing input: an object spec over a series in a zone one
    hour ahead of UTC is encoded; decoding gives an object spec whose
    series has every stamp one hour early, so that the two specs are not
    equivalent. *)
Theorem roundtrip_moves_stamps :
  exists json_repr s',
    encode [zoned_series] zoned_specs = Ok json_repr /\
    @load_series_specs_from_json example_runtime json_repr [zoned_series] =
      (Ok (DSpecs s'),
       [zoned_series;
        {| index := DatetimeIdx {| stamps := [data_start - hour_ns; data_start;
                                               data_start + hour_ns];
                                   tz := Some etc_gmt_minus_1;
                                   freq := None |};
           values := finite_values |}]) /\
    class s' = ObjectSeriesSpecs_ 1%nat /\
    ~ @roundtrip_as_stated example_runtime [zoned_series] zoned_specs.
Proof.
  eexists _, _. split; [vm_compute; reflexivity|].
  split; [vm_compute; reflexivity|].
  split; [reflexivity|].
  intros Hc. destruct (Hc _ ltac:(vm_compute; reflexivity)) as (s' & h' & Hdec & Heq).
  vm_compute in Hdec. injection Hdec as <- <-.
  destruct Heq as (_ & _ & _ & _ & Hdata).
  vm_compute in Hdata. discriminate.
Qed.

(** The same spec over a series in UTC comes back equivalent. *)
Lemma roundtrip_utc_example :
  @roundtrip_as_stated example_runtime
    [three_hours (Some pytz_utc) finite_values]
    (object_specs (OTz pytz_utc) ONone ONone).
Proof.
  intros json_repr Henc. vm_compute in Henc. injection Henc as <-.
  eexists _, _. split; [vm_compute; reflexivity|].
  repeat split.
Qed.

(** ** C7: the training and testing period *)

Lemma timedelta_fits_into_divide short_td long_td :
  timedelta_fits_into short_td long_td = true <-> (short_td | long_td).
Proof.
  unfold timedelta_fits_into. rewrite Z.eqb_eq.
  destruct (Z.eq_dec short_td 0) as [->|Hne].
  - rewrite Z.mod_0_r. split.
    + intros ->. apply Z.divide_0_r.
    + intros Hd. apply Z.divide_0_l. exact Hd.
  - apply Z.mod_divide. exact Hne.
Qed.

Module ModelProperties.
Import Model.

Section Init.
Context `{Runtime}.

(** The arguments that come before the check are accepted: the outcome
    and the regressors parse to [outcome] and [regs], the two bounds parse
    to [start_] and [end_], which can be subtracted. *)
Definition accepted (a : Args) (h : list Series) (h' : list Series)
    (start_ end_ : pydatetime) (period : Z) : Prop :=
  exists outcome h1 regs,
    parse_series_specs (a_outcome_var a) "y" h = (Ok outcome, h1) /\
    match a_regressors a with
    | None => (Ok [], h1)
    | Some rs => parse_regressors 1 rs h1
    end = (Ok regs, h') /\
    parse_datetime (a_start_of_training a) = Ok start_ /\
    parse_datetime (a_end_of_testing a) = Ok end_ /\
    datetime_sub end_ start_ = Ok period.

Lemma parse_datetime_error d e :
  parse_datetime d = Raise e -> exists msg, e = ValueError msg.
Proof.
  unfold parse_datetime. destruct d as [s|t]; [|discriminate].
  destruct (dateutil_parse s); [discriminate|]. intros [= <-]. eauto.
Qed.

Lemma parse_remodel_frequency_error r e :
  parse_remodel_frequency r = Raise e -> exists msg, e = ValueError msg.
Proof.
  unfold parse_remodel_frequency. destruct r as [s|t]; [|discriminate].
  destruct (NilZero.int_of_string s); [discriminate|]. intros [= <-]. eauto.
Qed.

End Init.


Definition at_hour (k : Z) : pydatetime :=
  {| dt_micros := 1548169200000000 + k * hour_us; dt_tz := Some pytz_utc |}.

(** The dummy model of the tests, with the end of testing at hour [k]. *)
Definition dummy_args (k : Z) : Args :=
  {| a_outcome_var := ArgSeries 0%nat;
     a_model := ("OLS", None);
     a_start_of_training := inr (at_hour 2);
     a_end_of_testing := inr {| dt_micros := 1548169200000000 + k;
                                dt_tz := Some pytz_utc |};
     a_frequency := hour_us;
     a_horizon := 2 * hour_us;
     a_lags := Some [1; 2];
     a_regressors := Some [ArgSeries 1%nat];
     a_ratio_training_testing_data := F64.div (F64.of_Z 2) (F64.of_Z 3);
     a_remodel_frequency := inr (48 * hour_us);
     a_model_filename := None;
     a_creation_time := None |}.

Definition dummy_heap : list Series :=
  [three_hours (Some pytz_utc) finite_values;
   three_hours (Some pytz_utc) [F64.of_Z 5; F64.of_Z 5; F64.of_Z 5]].


End ModelProperties.

(** ** C2: rolling forecasts *)

Module ForecastingProperties.
Import Forecasting.

Section Rolling.
Context {Features Handle : Type}.
Variable feature_row : Z -> failure + Features.
Variable fit : Z -> Handle.
Variable make_forecast_for : Handle -> Features -> F64.t.
Variable frequency : Z.
Variable remodel_frequency : Z.
Hypothesis frequency_positive : 0 < frequency.

Abbreviation rolling :=
  (Forecasting.rolling feature_row fit make_forecast_for frequency remodel_frequency).
Abbreviation complete := (Forecasting.complete feature_row).

Lemma edges_elem start step count t :
  t ∈ edges start step count <->
  exists k, 0 <= k < Z.of_nat count /\ t = start + k * step.
Proof.
  revert start. induction count as [|count IH]; intros start; simpl.
  - split; [intros Ht; inversion Ht|]. intros (k & Hk & _). lia.
  - rewrite elem_of_cons, IH. split.
    + intros [->|(k & Hk & ->)].
      * exists 0. lia.
      * exists (k + 1). lia.
    + intros (k & Hk & ->). destruct (Z.eq_dec k 0) as [->|Hne].
      * left. lia.
      * right. exists (k - 1). lia.
Qed.

Lemma tick_count_spec start end_ k :
  0 <= k ->
  k < Z.of_nat (tick_count frequency start end_) <-> start + k * frequency < end_.
Proof.
  intros Hk. unfold tick_count.
  pose proof (Z.div_mod (end_ - start + frequency - 1) frequency ltac:(lia)) as Hdm.
  pose proof (Z.mod_pos_bound (end_ - start + frequency - 1) frequency
                frequency_positive) as Hb.
  set (q := (end_ - start + frequency - 1) / frequency) in *.
  set (r := (end_ - start + frequency - 1) mod frequency) in *.
  split; intros Hlt.
  - assert (k + 1 <= q) as Hq by lia.
    assert ((k + 1) * frequency <= q * frequency) by nia. lia.
  - assert (k < q); [|lia].
    assert ((k + 1) * frequency < (q + 1) * frequency) by lia. nia.
Qed.

Lemma ticks_elem start end_ t :
  t ∈ ticks frequency start end_ <->
  exists k, 0 <= k /\ t = start + k * frequency /\ t < end_.
Proof.
  unfold ticks. rewrite edges_elem. split.
  - intros (k & [Hk Hlt] & ->). exists k. repeat split; auto.
    by apply tick_count_spec.
  - intros (k & Hk & -> & Hlt). exists k. repeat split; auto.
    by apply tick_count_spec.
Qed.

Lemma rolling_timestamps count t state :
  (forall u e, u ∈ edges t frequency count -> feature_row u <> inl (Failure e)) ->
  exists forecasts final,
    rolling count t state = Ok (forecasts, final) /\
    fst <$> forecasts =
      filter (fun u => Is_true (complete u)) (edges t frequency count).
Proof.
  revert t state. induction count as [|count IH]; intros t state Hok;
    cbn [Forecasting.rolling edges].
  - eexists _, _. split; reflexivity.
  - assert (Hrest : forall u e, u ∈ edges (t + frequency) frequency count ->
                                feature_row u <> inl (Failure e)).
    { intros u e Hu. apply Hok. by right. }
    destruct (feature_row t) as [[|e]|row] eqn:Hrow.
    + destruct (IH (t + frequency) state Hrest) as (fs & final & -> & Hts).
      rewrite filter_cons_False
        by (unfold Forecasting.complete; rewrite Hrow; auto).
      eauto.
    + exfalso. apply (Hok t e); [by left|exact Hrow].
    + set (state' := if remodel_frequency <=? t - fitted_at state
                     then {| model := fit t; fitted_at := t |} else state).
      destruct (IH (t + frequency) state' Hrest) as (fs & final & -> & Hts).
      rewrite filter_cons_True
        by (unfold Forecasting.complete; rewrite Hrow; exact I).
      eexists _, _. split; [reflexivity|]. csimpl. by rewrite Hts.
Qed.

End Rolling.

Lemma StronglySorted_filter {A} (R : relation A) (P : A -> Prop)
    `{forall x, Decision (P x)} (l : list A) :
  StronglySorted R l -> StronglySorted R (filter P l).
Proof.
  induction 1 as [|t l Hs IH Hall]; [constructor|].
  rewrite filter_cons. case_decide; [|exact IH].
  constructor; [exact IH|].
  rewrite Forall_forall in *. intros u Hu.
  apply list_elem_of_filter in Hu as [_ Hu]. auto.
Qed.


(** The range of the rolling forecast test, in hours: from hour 3 up to
    hour 26, one tick per hour. *)
Example ticks_of_the_test : ticks 1 3 26 = (fun k => 3 + Z.of_nat k) <$> seq 0 23.
Proof. reflexivity. Qed.

Definition lag_history (earliest max_lag : Z) (t : Z) : failure + Z :=
  if t <? earliest + max_lag then inl InsufficientHistory else inr t.


End ForecastingProperties.

(** * Further properties of the code *)

(** ** Specs that cannot be loaded *)

Section NeverLoaded.
Context `{Runtime}.

Lemma load_series_output f st raw idx0 :
  raw_series st = Some raw ->
  index raw = DatetimeIdx idx0 ->
  output (load_series f st) (heap (snd (load_series f st))) =
    loaded (resampling_config (self st)) (transformation (self st)) f raw.
Proof.
  intros Hraw Hidx.
  destruct (raw_series_inv _ _ Hraw) as (data & st1 & Hload & Hlook).
  destruct (load_series_run f _ _ _ _ _ Hload Hlook Hidx) as (extra & _ & Hout & _).
  exact Hout.
Qed.

Lemma loaded_without_frequency config transformation_ f raw idx0 :
  index raw = DatetimeIdx idx0 ->
  freq idx0 = None ->
  loaded config transformation_ f raw =
    Raise (match stamps idx0 with
           | [] => ValueError no_values_msg
           | _ =>
               if existsb F64.isnan (values raw) then ValueError nan_values_msg
               else AttributeError "'NoneType' object has no attribute 'freqstr'"
           end).
Proof.
  intros Hidx Hfreq. unfold loaded. rewrite Hidx, localized_freq, Hfreq.
  assert (Hs : stamps (localized idx0) = [] <-> stamps idx0 = []).
  { rewrite <- !length_zero_iff_nil, localized_length. reflexivity. }
  destruct (stamps (localized idx0)) eqn:E1; destruct (stamps idx0) eqn:E2.
  - reflexivity.
  - destruct Hs as [Hs _]. discriminate (Hs eq_refl).
  - destruct Hs as [_ Hs]. discriminate (Hs eq_refl).
  - destruct (existsb F64.isnan (values raw)); reflexivity.
Qed.

End NeverLoaded.

(** X1: a spec of the base class, or a [CSVFileSeriesSpecs], has the empty
    [pd.Series()] for data: whatever the expected frequency, [load_series]
    raises [IncompatibleModelSpecs] for the index of that series, and leaves
    the spec as it was. *)
Theorem load_series_without_source `{Runtime} expected_frequency st :
  class (self st) = SeriesSpecs_ \/ class (self st) = CSVFileSeriesSpecs_ ->
  load_series expected_frequency st =
    (Raise (IncompatibleModelSpecs "Loaded series has no DatetimeIndex, but Index"),
     {| self := self st; heap := heap st ++ [empty_Series] |}).
Proof.
  intros Hclass.
  assert (Hload : _load_series st =
            (Ok (length (heap st)),
             {| self := self st; heap := heap st ++ [empty_Series] |})).
  { unfold _load_series, bind, get_self, alloc. cbn.
    destruct Hclass as [-> | ->]; reflexivity. }
  apply (load_series_no_time_index _ _ _ _ empty_Series "Index" 0%nat Hload).
  - cbn [heap]. apply lookup_snoc.
  - reflexivity.
Qed.

Lemma load_series_without_source_witness :
  @load_series example_runtime hour_us (base_state (OTz etc_gmt_minus_1)) =
    (Raise (IncompatibleModelSpecs "Loaded series has no DatetimeIndex, but Index"),
     {| self := self (base_state (OTz etc_gmt_minus_1));
        heap := heap (base_state (OTz etc_gmt_minus_1)) ++ [empty_Series] |}).
Proof.
  apply (@load_series_without_source example_runtime hour_us
           (base_state (OTz etc_gmt_minus_1))).
  left. reflexivity.
Defined.

(** X2: a series that passes the checks of [load_series] but whose index
    carries no frequency is not resampled: the load raises [AttributeError]
    on [data.index.freq.freqstr], whatever the expected frequency, the
    resampling configuration and the transformation are. *)
Theorem load_series_without_frequency `{Runtime} st raw idx0 :
  raw_series st = Some raw ->
  index raw = DatetimeIdx idx0 ->
  stamps idx0 <> [] ->
  existsb F64.isnan (values raw) = false ->
  freq idx0 = None ->
  forall expected_frequency config transformation_,
    fst (load_series expected_frequency (reconfigured st config transformation_)) =
      Raise (AttributeError "'NoneType' object has no attribute 'freqstr'").
Proof.
  intros Hraw Hidx Hne Hnan Hfreq f config tr.
  pose proof (load_series_loaded f (reconfigured st config tr) raw idx0) as Hl.
  rewrite raw_series_reconfigured in Hl. specialize (Hl Hraw Hidx).
  rewrite (loaded_without_frequency _ _ _ _ _ Hidx Hfreq), Hnan in Hl.
  destruct (stamps idx0); [congruence|exact Hl].
Qed.

(** Three observations at irregular times, as an index built from a list
    of dates has them. *)
Definition irregular : Series :=
  {| index := DatetimeIdx {| stamps := [data_start; data_start + hour_ns;
                                         data_start + 5 * hour_ns];
                             tz := Some pytz_utc;
                             freq := None |};
     values := finite_values |}.

Lemma load_series_without_frequency_witness :
  forall expected_frequency config transformation_,
    fst (@load_series example_runtime expected_frequency
           (reconfigured (plain_state irregular) config transformation_)) =
      Raise (AttributeError "'NoneType' object has no attribute 'freqstr'").
Proof.
  apply (@load_series_without_frequency example_runtime (plain_state irregular)
           irregular
           {| stamps := [data_start; data_start + hour_ns; data_start + 5 * hour_ns];
              tz := Some pytz_utc; freq := None |}).
  - reflexivity.
  - reflexivity.
  - discriminate.
  - reflexivity.
  - reflexivity.
Defined.

(** ** The series of a query-backed spec *)

Section QueryBacked.
Context `{Runtime}.

Lemma drop_duplicates_from_length seen rows :
  (length (drop_duplicates_from seen rows) <= length rows)%nat.
Proof.
  revert seen. induction rows as [|a rows IH]; intros seen; simpl; [lia|].
  case_bool_decide; simpl.
  - specialize (IH seen). lia.
  - specialize (IH (Row_datetime a :: seen)). lia.
Qed.

Lemma drop_duplicates_nonempty rows : rows <> [] -> drop_duplicates rows <> [].
Proof.
  destruct rows as [|a rows]; [congruence|]. intros _.
  unfold drop_duplicates. cbn [drop_duplicates_from].
  case_bool_decide as Hin; [inversion Hin|discriminate].
Qed.

Lemma not_null_value rows r :
  existsb Row_isnull rows = false -> r ∈ rows -> F64.isnan (value r) = false.
Proof.
  intros Hnull Hr.
  destruct (F64.isnan (value r)) eqn:E; [|reflexivity].
  rewrite <- Hnull. symmetry. apply existsb_exists.
  exists r. split; [by apply list_elem_of_In|].
  unfold Row_isnull. rewrite E. destruct (isnone (datetime r)); reflexivity.
Qed.

End QueryBacked.

(** X3: the series that [DBSeriesSpecs._load_series] returns is never
    empty and holds no NaN: its index is in UTC, carries no frequency and
    has one stamp per value, and there are no more values than the query
    returned rows. *)
Theorem DB_load_series_clean `{Runtime} q s :
  DB_load_series q = Ok s ->
  exists idx,
    index s = DatetimeIdx idx /\
    tz idx = Some pytz_utc /\
    freq idx = None /\
    stamps idx <> [] /\
    length (stamps idx) = length (values s) /\
    existsb F64.isnan (values s) = false /\
    (length (values s) <= length (all q))%nat.
Proof.
  unfold DB_load_series.
  destruct (all q) as [|r0 rows0] eqn:Hrows; [discriminate|].
  rewrite <- Hrows.
  destruct (existsb Row_isnull (all q)) eqn:Hnull; [discriminate|].
  intros [= <-].
  set (by_horizon := sort_values Row_horizon (all q)).
  set (kept := drop_duplicates by_horizon).
  set (series := sort_values Row_datetime kept).
  assert (Hperm1 : by_horizon ≡ₚ all q) by apply sort_values_perm.
  assert (Hperm3 : series ≡ₚ kept) by apply sort_values_perm.
  eexists. split; [reflexivity|]. cbn [tz freq stamps values].
  split; [reflexivity|]. split; [reflexivity|].
  assert (Hkept : kept <> []).
  { apply drop_duplicates_nonempty. intros E.
    apply Permutation_length in Hperm1. rewrite E, Hrows in Hperm1. discriminate. }
  split; [|split; [|split]].
  - intros E. apply fmap_nil_inv in E.
    apply Permutation_length in Hperm3. rewrite E in Hperm3.
    destruct kept; [congruence|discriminate].
  - rewrite !length_fmap. reflexivity.
  - destruct (existsb F64.isnan (value <$> series)) eqn:E; [|reflexivity].
    apply existsb_exists in E as (v & Hv & Hnan).
    apply list_elem_of_In, list_elem_of_fmap in Hv as (r & -> & Hr).
    rewrite Hperm3 in Hr. apply drop_duplicates_from_elem in Hr as [Hr _].
    rewrite Hperm1 in Hr. rewrite (not_null_value _ _ Hnull Hr) in Hnan.
    discriminate.
  - rewrite length_fmap, (Permutation_length Hperm3).
    etrans; [apply drop_duplicates_from_length|].
    rewrite (Permutation_length Hperm1). reflexivity.
Qed.

Lemma DB_load_series_clean_witness :
  exists idx,
    index most_recent_series = DatetimeIdx idx /\
    tz idx = Some pytz_utc /\
    freq idx = None /\
    stamps idx <> [] /\
    length (stamps idx) = length (values most_recent_series) /\
    existsb F64.isnan (values most_recent_series) = false /\
    (length (values most_recent_series) <= length (all revised_query))%nat.
Proof.
  apply (@DB_load_series_clean example_runtime revised_query most_recent_series).
  vm_compute. reflexivity.
Defined.

(** X4: [load_series] on a query-backed spec never returns a series. It
    raises the [ValueError] of [_load_series] when the query returns no row
    or a row with a null, and otherwise [AttributeError], because the index
    built from the rows carries no frequency. *)
Theorem load_series_query_backed_raises `{Runtime} expected_frequency st db_engine q :
  class (self st) = DBSeriesSpecs_ db_engine (OQuery q) ->
  fst (load_series expected_frequency st) =
    Raise (match DB_load_series q with
           | Raise e => e
           | Ok _ => AttributeError "'NoneType' object has no attribute 'freqstr'"
           end).
Proof.
  intros Hclass.
  assert (Hload : _load_series st =
            match DB_load_series q with
            | Ok s => (Ok (length (heap st)),
                       {| self := self st; heap := heap st ++ [s] |})
            | Raise e => (Raise e, st)
            end).
  { unfold _load_series, bind, get_self, lift, alloc. cbn. rewrite Hclass.
    destruct (DB_load_series q); reflexivity. }
  destruct (DB_load_series q) as [s|e] eqn:Hdb.
  - destruct (DB_load_series_clean q s Hdb)
      as (idx & Hidx & _ & Hfreq & Hne & Hlen & Hnan & _).
    assert (Hraw : raw_series st = Some s).
    { unfold raw_series. rewrite Hload. cbn [heap]. apply lookup_snoc. }
    pose proof (load_series_loaded expected_frequency st s idx Hraw Hidx) as Hl.
    rewrite (loaded_without_frequency _ _ _ _ _ Hidx Hfreq), Hnan in Hl.
    destruct (stamps idx); [congruence|exact Hl].
  - rewrite (_load_series_raises expected_frequency _ _ _ Hload). reflexivity.
Qed.

Definition query_state (q : Query) : PyState :=
  {| self := DBSeriesSpecs_init (OForeign "Engine(postgresql://)") (OQuery q)
               (OStr "value") (OTz pytz_utc) ONone ONone;
     heap := [] |}.

Lemma load_series_query_backed_raises_witness :
  fst (@load_series example_runtime hour_us (query_state revised_query)) =
    Raise (match @DB_load_series example_runtime revised_query with
           | Raise e => e
           | Ok _ => AttributeError "'NoneType' object has no attribute 'freqstr'"
           end).
Proof.
  apply (@load_series_query_backed_raises example_runtime hour_us
           (query_state revised_query) (OForeign "Engine(postgresql://)") revised_query).
  reflexivity.
Defined.

(** ** What a load leaves alone, and which object it returns *)

Section Objects.
Context `{Runtime}.

Lemma _load_series_heap st r st1 :
  _load_series st = (r, st1) ->
  exists extra,
    heap st1 = (heap st ++ extra)%list /\
    forall data, r = Ok data ->
      class (self st) = ObjectSeriesSpecs_ data \/ data = length (heap st).
Proof.
  unfold _load_series, bind, get_self, alloc, ret, lift, raise. cbn [self].
  destruct (class (self st)) as [|data| |file_path column|db_engine query] eqn:Hc.
  - intros [= <- <-]. exists [empty_Series]. split; [reflexivity|].
    intros data [= <-]. by right.
  - intros [= <- <-]. exists []. rewrite app_nil_r. split; [reflexivity|].
    intros d [= <-]. by left.
  - intros [= <- <-]. exists [empty_Series]. split; [reflexivity|].
    intros data [= <-]. by right.
  - destruct (DFFile_load_series file_path column) as [s|e]; intros [= <- <-].
    + exists [s]. split; [reflexivity|]. intros data [= <-]. by right.
    + exists []. rewrite app_nil_r. split; [reflexivity|]. intros data [=].
  - assert (Hraised : forall e : exn,
      (@Raise loc e, st) = (r, st1) ->
      exists extra, heap st1 = (heap st ++ extra)%list /\
        forall data, r = Ok data ->
          DBSeriesSpecs_ db_engine query = ObjectSeriesSpecs_ data \/
          data = length (heap st)).
    { intros e [= <- <-]. exists []. rewrite app_nil_r.
      split; [reflexivity|]. intros data [=]. }
    destruct query; try apply Hraised.
    destruct (DB_load_series q) as [s|e]; [|apply Hraised].
    intros [= <- <-]. exists [s]. split; [reflexivity|].
    intros data [= <-]. by right.
Qed.

Lemma ensure_timezone_run data st1 raw idx0 :
  heap st1 !! data = Some raw ->
  index raw = DatetimeIdx idx0 ->
  ensure_timezone data idx0 st1 =
    (Ok (localized idx0),
     {| self := with_original_tz (self st1) (OTz (default pytz_utc (tz idx0)));
        heap := <[data := relocalized raw idx0]> (heap st1) |}).
Proof.
  intros Hraw Hidx.
  unfold ensure_timezone, bind, localized, set_original_tz, set_index,
    ret, with_original_tz.
  destruct (tz idx0) as [z|] eqn:Htz; cbn [heap self default].
  - f_equal. f_equal. symmetry. apply list_insert_id. etrans; [exact Hraw|].
    f_equal. unfold relocalized, localized. rewrite Htz.
    destruct raw; simpl in *; congruence.
  - rewrite Hraw. unfold relocalized, localized. rewrite Htz. reflexivity.
Qed.

(** A series that was resampled or transformed is a new object. *)
Lemma load_series_fresh f st data st1 raw idx0 l :
  _load_series st = (Ok data, st1) ->
  heap st1 !! data = Some raw ->
  index raw = DatetimeIdx idx0 ->
  freq_matches f idx0 = false \/ transformation (self st) <> ONone ->
  fst (load_series f st) = Ok l ->
  (length (heap st1) <= l)%nat.
Proof.
  intros Hload Hraw Hidx Hwhy.
  pose proof (_load_series_self _ _ _ Hload) as Hself.
  unfold load_series, bind. rewrite Hload.
  unfold deref. rewrite Hraw, Hidx.
  rewrite (ensure_timezone_run _ _ _ _ Hraw Hidx).
  destruct (stamps (localized idx0)); [discriminate|].
  destruct (existsb F64.isnan (values raw)); [discriminate|].
  unfold freq_matches in Hwhy. rewrite <- localized_freq in Hwhy.
  destruct (freq (localized idx0)) as [f0|]; [|discriminate].
  unfold resample_data, bind, get_self, lift, alloc, ret, raise.
  cbn [self heap with_original_tz transformation resampling_config].
  rewrite Hself.
  destruct (freqstr f0 =? timedelta_to_pandas_freq_str f)%string.
  - destruct Hwhy as [?|Htr]; [discriminate|].
    cbn [self heap with_original_tz transformation].
    destruct (transformation (self st)); try discriminate; [congruence|].
    cbn [index values].
    destruct (new_Series _ _); [|discriminate].
    cbn [fst heap]. intros [= <-]. rewrite length_insert. lia.
  - destruct (resample_with _ _ _ _); [|discriminate].
    cbn [self heap with_original_tz transformation].
    destruct (transformation (self st)); try discriminate.
    + cbn [fst heap]. intros [= <-]. rewrite length_insert. lia.
    + destruct (new_Series _ _); [|discriminate].
      cbn [fst heap]. intros [= <-]. rewrite length_app, length_insert. lia.
Qed.

End Objects.

(** X5: whatever it returns or raises, [load_series] changes no attribute
    of the spec but [original_tz], and no series of the heap but the one
    that an object spec stores: the name, the transformation, the
    resampling configuration and the class are kept, and every other
    object is as it was. *)
Theorem load_series_frame `{Runtime} expected_frequency st :
  let st' := snd (load_series expected_frequency st) in
  name (self st') = name (self st) /\
  transformation (self st') = transformation (self st) /\
  resampling_config (self st') = resampling_config (self st) /\
  class (self st') = class (self st) /\
  forall l s,
    heap st !! l = Some s ->
    class (self st) <> ObjectSeriesSpecs_ l ->
    heap st' !! l = Some s.
Proof.
  cbn zeta.
  destruct (_load_series st) as [r st1] eqn:Hload.
  pose proof (_load_series_self _ _ _ Hload) as Hself.
  destruct (_load_series_heap _ _ _ Hload) as (extra & Hheap & Hdata).
  assert (Hkept : forall l s, heap st !! l = Some s -> heap st1 !! l = Some s).
  { intros l s Hl. rewrite Hheap. by apply lookup_app_l_Some. }
  assert (Hst1 : forall e,
    load_series expected_frequency st = (Raise e, st1) ->
    name (self (snd (load_series expected_frequency st))) = name (self st) /\
    transformation (self (snd (load_series expected_frequency st))) =
      transformation (self st) /\
    resampling_config (self (snd (load_series expected_frequency st))) =
      resampling_config (self st) /\
    class (self (snd (load_series expected_frequency st))) = class (self st) /\
    forall l s, heap st !! l = Some s -> class (self st) <> ObjectSeriesSpecs_ l ->
                heap (snd (load_series expected_frequency st)) !! l = Some s).
  { intros e ->. cbn [snd]. rewrite Hself. repeat split; auto. }
  destruct r as [data|e].
  2:{ eapply Hst1, _load_series_raises. exact Hload. }
  destruct (heap st1 !! data) as [raw|] eqn:Hraw.
  2:{ apply (Hst1 DanglingReference).
      unfold load_series, bind, deref. rewrite Hload, Hraw. reflexivity. }
  destruct (index raw) as [idx0|type_name size] eqn:Hidx.
  2:{ eapply Hst1, load_series_no_time_index; eauto. }
  destruct (load_series_run expected_frequency _ _ _ _ _ Hload Hraw Hidx)
    as (extra' & -> & _ & _).
  cbn [self heap name transformation resampling_config class with_original_tz].
  repeat split.
  intros l s Hl Hclass.
  assert (Hlt : (l < length (heap st))%nat) by (eapply lookup_lt_Some; eauto).
  assert (data <> l).
  { destruct (Hdata data eq_refl) as [Hc | ->]; [congruence|lia]. }
  rewrite lookup_app_l by (rewrite length_insert, Hheap, length_app; lia).
  rewrite list_lookup_insert_ne by assumption. auto.
Qed.

(** X6: when the stored series of an object spec passes the checks, its
    frequency reads like the expected one and no transformation is set,
    [load_series] allocates nothing and returns the stored series itself:
    the caller and the spec share one object. *)
Theorem load_series_returns_stored_series `{Runtime} expected_frequency st data raw idx0 :
  class (self st) = ObjectSeriesSpecs_ data ->
  heap st !! data = Some raw ->
  index raw = DatetimeIdx idx0 ->
  stamps idx0 <> [] ->
  existsb F64.isnan (values raw) = false ->
  freq_matches expected_frequency idx0 = true ->
  transformation (self st) = ONone ->
  load_series expected_frequency st =
    (Ok data,
     {| self := with_original_tz (self st) (OTz (default pytz_utc (tz idx0)));
        heap := <[data := relocalized raw idx0]> (heap st) |}).
Proof.
  intros Hclass Hraw Hidx Hne Hnan Hmatch Htr.
  unfold load_series, bind. rewrite (_load_series_object _ _ Hclass).
  unfold deref. rewrite Hraw, Hidx.
  rewrite (ensure_timezone_run _ _ _ _ Hraw Hidx).
  assert (Hs : stamps (localized idx0) <> []).
  { rewrite <- length_zero_iff_nil, localized_length, length_zero_iff_nil. exact Hne. }
  destruct (stamps (localized idx0)); [congruence|].
  rewrite Hnan. unfold freq_matches in Hmatch. rewrite <- localized_freq in Hmatch.
  destruct (freq (localized idx0)) as [f0|]; [|discriminate].
  rewrite Hmatch.
  unfold ret, get_self. cbn [self with_original_tz transformation].
  rewrite Htr. reflexivity.
Qed.

Lemma load_series_returns_stored_series_witness :
  @load_series example_runtime hour_us (plain_state (three_hours None finite_values)) =
    (Ok 0%nat,
     {| self := with_original_tz (self (plain_state (three_hours None finite_values)))
                  (OTz (default pytz_utc None));
        heap := <[0%nat := relocalized (three_hours None finite_values)
                             {| stamps := [data_start; data_start + hour_ns;
                                           data_start + 2 * hour_ns];
                                tz := None; freq := Some hourly |}]>
                  (heap (plain_state (three_hours None finite_values))) |}).
Proof.
  apply (@load_series_returns_stored_series example_runtime hour_us
           (plain_state (three_hours None finite_values)) 0%nat
           (three_hours None finite_values)
           {| stamps := [data_start; data_start + hour_ns; data_start + 2 * hour_ns];
              tz := None; freq := Some hourly |}).
  - reflexivity.
  - reflexivity.
  - reflexivity.
  - discriminate.
  - reflexivity.
  - vm_compute. reflexivity.
  - reflexivity.
Defined.

(** X7: when [load_series] on an object spec has to resample, or has a
    transformation to apply, the series it returns is a new object: the
    stored series is another one, and it still holds its own values. *)
Theorem load_series_returns_new_series `{Runtime} expected_frequency st data raw idx0 l :
  class (self st) = ObjectSeriesSpecs_ data ->
  heap st !! data = Some raw ->
  index raw = DatetimeIdx idx0 ->
  freq_matches expected_frequency idx0 = false \/ transformation (self st) <> ONone ->
  fst (load_series expected_frequency st) = Ok l ->
  l <> data /\
  heap st !! l = None /\
  heap (snd (load_series expected_frequency st)) !! data =
    Some (relocalized raw idx0).
Proof.
  intros Hclass Hraw Hidx Hwhy Hl.
  pose proof (_load_series_object _ _ Hclass) as Hload.
  pose proof (load_series_fresh _ _ _ _ _ _ _ Hload Hraw Hidx Hwhy Hl) as Hfresh.
  assert (Hlt : (data < length (heap st))%nat) by (eapply lookup_lt_Some; eauto).
  split; [lia|]. split; [by apply lookup_ge_None_2|].
  destruct (load_series_run expected_frequency _ _ _ _ _ Hload Hraw Hidx)
    as (extra & -> & _ & _).
  cbn [heap]. rewrite lookup_app_l by (rewrite length_insert; exact Hlt).
  by apply list_lookup_insert_eq.
Qed.

Lemma load_series_returns_new_series_witness :
  1%nat <> 0%nat /\
  heap (plain_state (three_hours (Some pytz_utc) finite_values)) !! 1%nat = None /\
  heap (snd (@load_series example_runtime (hour_us / 2)
               (plain_state (three_hours (Some pytz_utc) finite_values)))) !! 0%nat =
    Some (relocalized (three_hours (Some pytz_utc) finite_values)
            {| stamps := [data_start; data_start + hour_ns; data_start + 2 * hour_ns];
               tz := Some pytz_utc; freq := Some hourly |}).
Proof.
  apply (@load_series_returns_new_series example_runtime (hour_us / 2)
           (plain_state (three_hours (Some pytz_utc) finite_values)) 0%nat
           (three_hours (Some pytz_utc) finite_values)
           {| stamps := [data_start; data_start + hour_ns; data_start + 2 * hour_ns];
              tz := Some pytz_utc; freq := Some hourly |} 1%nat).
  - reflexivity.
  - reflexivity.
  - reflexivity.
  - left. vm_compute. reflexivity.
  - vm_compute. reflexivity.
Defined.

(** X8: the transformation comes last. Loading with a transformation gives
    the series that loading without it gives, with the same index and with
    the transformation applied to its values; it raises what loading
    without it raises, and [ValueError] when the transformation returns
    another number of values. *)
Theorem load_series_transforms_last `{Runtime} expected_frequency st raw idx0 config t :
  raw_series st = Some raw ->
  index raw = DatetimeIdx idx0 ->
  let plain := load_series expected_frequency (reconfigured st config ONone) in
  let transformed :=
    load_series expected_frequency (reconfigured st config (OTransformation t)) in
  output transformed (heap (snd transformed)) =
    match output plain (heap (snd plain)) with
    | Ok s => new_Series (index s) (transform t (values s))
    | Raise e => Raise e
    end.
Proof.
  intros Hraw Hidx plain transformed. unfold plain, transformed.
  rewrite (load_series_output _ (reconfigured st config ONone) raw idx0)
    by (rewrite ?raw_series_reconfigured; assumption).
  rewrite (load_series_output _ (reconfigured st config (OTransformation t)) raw idx0)
    by (rewrite ?raw_series_reconfigured; assumption).
  cbn [reconfigured self resampling_config transformation].
  unfold loaded. rewrite Hidx.
  destruct (stamps (localized idx0)); [reflexivity|].
  destruct (existsb F64.isnan (values raw)); [reflexivity|].
  destruct (freq (localized idx0)) as [f0|]; [|reflexivity].
  destruct (if (freqstr f0 =? timedelta_to_pandas_freq_str expected_frequency)%string
            then _ else _); reflexivity.
Qed.

(** Adding a constant to every value, as the transformation of the tests
    does. *)
Definition addition (a : Z) : Transformation :=
  {| params := {[ "addition" := PyInt a ]};
     transform := map (fun x => F64.add x (F64.of_Z a)) |}.

Lemma load_series_transforms_last_witness :
  let st := plain_state (three_hours (Some pytz_utc) finite_values) in
  let plain := @load_series example_runtime (2 * hour_us) (reconfigured st ONone ONone) in
  let transformed :=
    @load_series example_runtime (2 * hour_us)
      (reconfigured st ONone (OTransformation (addition 7))) in
  output transformed (heap (snd transformed)) =
    match output plain (heap (snd plain)) with
    | Ok s => new_Series (index s) (transform (addition 7) (values s))
    | Raise e => Raise e
    end.
Proof.
  apply (@load_series_transforms_last example_runtime (2 * hour_us)
           (plain_state (three_hours (Some pytz_utc) finite_values))
           (three_hours (Some pytz_utc) finite_values)
           {| stamps := [data_start; data_start + hour_ns; data_start + 2 * hour_ns];
              tz := Some pytz_utc; freq := Some hourly |}
           ONone (addition 7)); reflexivity.
Defined.

(** ** Decoding *)

Section Signatures.

Lemma public_items_lookup `{Runtime} json_repr k :
  public_items json_repr !! k =
    if String.prefix "__" k then None else json_repr !! k.
Proof.
  unfold public_items. destruct (String.prefix "__" k) eqn:Hk.
  - apply map_lookup_filter_None_2. right. intros x _. cbn. congruence.
  - destruct (json_repr !! k) as [x|] eqn:Hx.
    + by apply map_lookup_filter_Some_2.
    + apply map_lookup_filter_None_2. by left.
Qed.

Lemma unexpected_kwarg_None params kwargs :
  (forall k, is_Some (kwargs !! k) -> k ∈ params) ->
  unexpected_kwarg params kwargs = None.
Proof.
  intros Hall. unfold unexpected_kwarg.
  assert (Hl : forall kv, kv ∈ map_to_list kwargs -> kv.1 ∈ params).
  { intros [k v] Hkv. apply elem_of_map_to_list in Hkv. apply Hall. eauto. }
  induction (map_to_list kwargs) as [|kv l IH]; [reflexivity|].
  rewrite filter_cons_False.
  - apply IH. intros kv' Hkv'. apply Hl. by right.
  - intros Hn. apply Hn, Hl. by left.
Qed.

Lemma unexpected_kwarg_Some params kwargs k :
  is_Some (kwargs !! k) -> k ∉ params ->
  is_Some (unexpected_kwarg params kwargs).
Proof.
  intros [v Hv] Hk. unfold unexpected_kwarg.
  apply elem_of_map_to_list in Hv.
  induction (map_to_list kwargs) as [|kv l IH]; [inversion Hv|].
  destruct (decide (kv.1 ∉ params)) as [Hn|Hn].
  - rewrite filter_cons_True by exact Hn. cbn. eauto.
  - rewrite filter_cons_False by exact Hn.
    apply elem_of_cons in Hv as [<-|Hv]; [contradiction|]. by apply IH.
Qed.

Lemma missing_arg_None required kwargs :
  (forall k, k ∈ required -> is_Some (kwargs !! k)) ->
  missing_arg required kwargs = None.
Proof.
  intros Hall. unfold missing_arg.
  induction required as [|k required IH]; [reflexivity|].
  rewrite filter_cons_False.
  - apply IH. intros k' Hk'. apply Hall. by right.
  - intros Hn. destruct (Hall k) as [v Hv]; [by left|]. congruence.
Qed.

Lemma check_signature_ok params required kwargs :
  (forall k, is_Some (kwargs !! k) -> k ∈ params) ->
  (forall k, k ∈ required -> is_Some (kwargs !! k)) ->
  check_signature params required kwargs = Ok ().
Proof.
  intros Hp Hr. unfold check_signature.
  rewrite unexpected_kwarg_None, missing_arg_None by assumption. reflexivity.
Qed.

End Signatures.

Definition tag_of (c : SeriesClass) : ClassTag :=
  match c with
  | SeriesSpecs_ => CSeriesSpecs
  | ObjectSeriesSpecs_ _ => CObjectSeriesSpecs
  | CSVFileSeriesSpecs_ => CCSVFileSeriesSpecs
  | DFFileSeriesSpecs_ _ _ => CDFFileSeriesSpecs
  | DBSeriesSpecs_ _ _ => CDBSeriesSpecs
  end.

(** The parameters of the constructor of each class. *)
Definition class_params (c : ClassTag) : list string :=
  match c with
  | CSeriesSpecs | CCSVFileSeriesSpecs => base_params
  | CObjectSeriesSpecs => "data" :: base_params
  | CDFFileSeriesSpecs => "file_path" :: "column" :: base_params
  | CDBSeriesSpecs => "db_engine" :: "query" :: base_params
  end.

Section AttributeDictionary.
Context `{Runtime}.

Lemma class_name_resolves c :
  module_globals !! class_name c = Some (GClass (tag_of c)).
Proof. destruct c; vm_compute; reflexivity. Qed.

Lemma as_dict_base s :
  as_dict s !! "name" = Some (name s) /\
  as_dict s !! "original_tz" = Some (original_tz s) /\
  as_dict s !! "transformation" = Some (transformation s) /\
  as_dict s !! "resampling_config" = Some (resampling_config s) /\
  as_dict s !! "__series_type__" = Some (OStr (series_type s)).
Proof.
  unfold as_dict. repeat split.
  - by rewrite lookup_insert_eq.
  - rewrite lookup_insert_ne by done. by rewrite lookup_insert_eq.
  - do 2 rewrite lookup_insert_ne by done. by rewrite lookup_insert_eq.
  - do 3 rewrite lookup_insert_ne by done. by rewrite lookup_insert_eq.
  - do 4 rewrite lookup_insert_ne by done. by rewrite lookup_insert_eq.
Qed.

Lemma as_dict_keys s k :
  is_Some (as_dict s !! k) ->
  k = "__series_type__" \/ k ∈ class_params (tag_of (class s)).
Proof.
  unfold as_dict. intros [v Hv].
  repeat (apply lookup_insert_Some in Hv as [[<- _]|[_ Hv]];
          [destruct (class s); cbn; set_solver|]).
  right. destruct (class s); cbn in *.
  - by rewrite lookup_empty in Hv.
  - apply lookup_singleton_Some in Hv as [<- _]. set_solver.
  - by rewrite lookup_empty in Hv.
  - apply lookup_insert_Some in Hv as [[<- _]|[_ Hv]]; [set_solver|].
    apply lookup_singleton_Some in Hv as [<- _]. set_solver.
  - apply lookup_insert_Some in Hv as [[<- _]|[_ Hv]]; [set_solver|].
    apply lookup_singleton_Some in Hv as [<- _]. set_solver.
Qed.

Lemma as_dict_class_vars s k :
  k ∉ "__series_type__" :: base_params ->
  as_dict s !! k = class_vars (class s) !! k.
Proof.
  intros Hk. unfold as_dict, base_params in *.
  repeat rewrite lookup_insert_ne by (intros <-; apply Hk; set_solver).
  reflexivity.
Qed.

End AttributeDictionary.
